(** * PDF to text OCR converter: the page extraction pipeline of [app.py]

    A shallow embedding of [pdf_to_text] and of the processing branch of
    [main], with the file system, the Streamlit widgets and the two external
    engines (pdf2image, pytesseract) made explicit, followed by the
    properties of the pipeline.

    Conventions.
    - A Python [str] is a [string]; a character is a code point below 256.
    - Python integers are [nat] (page counters and lengths only).
    - The file system is a finite map from paths to file contents.
    - Every call the code makes to Streamlit or to the OCR engine is
      appended to a trace, in program order.
    - Exceptions are values of [exn]; a computation returns or raises.

    What is taken from outside [app.py].
    - The rasterizer, the OCR engine, the write to the temporary file and
      the choice of its name are functions of what they are given
      ([Externals]); they raise or return, and touch neither the other
      files nor the page.
    - [NamedTemporaryFile] succeeds in creating its file, and the
      Streamlit calls do not raise.
    - [i / len(pages)] is kept as the pair of its operands; the float is
      not computed. *)

From Stdlib Require Import String Ascii List Arith Lia Strings.Byte.
From stdpp Require Import base gmap strings list.

Open Scope string_scope.
Open Scope list_scope.

(* ===================================================================== *)
(** ** Python string operations used by the program *)
(* ===================================================================== *)

Module PyStr.

(** [c.isspace()] for code points below 256: TAB, LF, VT, FF, CR,
    FS, GS, RS, US, SPACE, NEL (0x85) and NBSP (0xA0). *)
Definition is_space (c : ascii) : bool :=
  let n := nat_of_ascii c in
  (((9 <=? n) && (n <=? 13)) || ((28 <=? n) && (n <=? 32))
   || (n =? 133) || (n =? 160))%nat.

(** The newline character, the one-character string ["\n"]. *)
Definition nl : ascii := ascii_of_nat 10.
Definition newline : string := String nl EmptyString.

(** [sep.join(parts)] *)
Fixpoint join (sep : string) (parts : list string) : string :=
  match parts with
  | [] => EmptyString
  | [x] => x
  | x :: rest => x +:+ sep +:+ join sep rest
  end.

(** [s.lstrip()] *)
Fixpoint lstrip (s : string) : string :=
  match s with
  | EmptyString => EmptyString
  | String c s' => if is_space c then lstrip s' else s
  end.

(** [s.rstrip()]: a character is dropped when it is whitespace and
    everything after it has been dropped. *)
Fixpoint rstrip (s : string) : string :=
  match s with
  | EmptyString => EmptyString
  | String c s' =>
      match rstrip s' with
      | EmptyString => if is_space c then EmptyString else String c EmptyString
      | r => String c r
      end
  end.

(** [s.strip()] *)
Definition strip (s : string) : string := rstrip (lstrip s).

(** Truth value of a [str]: non-empty. *)
Definition truthy (s : string) : bool :=
  match s with EmptyString => false | _ => true end.

(** Scan of [s.replace(old, new)] for a non-empty [old]: [skip] counts the
    characters of the current match still to be consumed. *)
Fixpoint replace_go (old new : string) (skip : nat) (s : string) : string :=
  match s with
  | EmptyString => EmptyString
  | String c s' =>
      match skip with
      | S k => replace_go old new k s'
      | O =>
          if String.prefix old s
          then new +:+ replace_go old new (String.length old - 1) s'
          else String c (replace_go old new 0 s')
      end
  end.

(** With an empty [old], Python inserts [new] before every character and
    at the end. *)
Fixpoint replace_empty (new : string) (s : string) : string :=
  match s with
  | EmptyString => new
  | String c s' => new +:+ String c (replace_empty new s')
  end.

(** [s.replace(old, new)]: every non-overlapping occurrence, leftmost
    first. *)
Definition replace (s old new : string) : string :=
  match old with
  | EmptyString => replace_empty new s
  | _ => replace_go old new 0 s
  end.

(** [s.endswith(suffix)] *)
Definition endswith (s suffix : string) : bool :=
  let n := String.length s in
  let k := String.length suffix in
  (k <=? n)%nat && String.eqb (String.substring (n - k) k s) suffix.

(** [s.removesuffix(suffix)]: the reading of "the name without its
    [.pdf] suffix" that the interface description gives. *)
Definition removesuffix (s suffix : string) : string :=
  if endswith s suffix && negb (String.eqb suffix EmptyString)
  then String.substring 0 (String.length s - String.length suffix) s
  else s.

(** Number of occurrences of the character [c] in [s]. *)
Fixpoint count_char (c : ascii) (s : string) : nat :=
  match s with
  | EmptyString => 0
  | String d s' => (if Ascii.eqb d c then 1 else 0) + count_char c s'
  end.

(** [len(s.split('\n'))] *)
Definition count_lines (s : string) : nat := S (count_char nl s).

(** [len(s.split())]: the maximal runs of non-whitespace characters. *)
Fixpoint count_words_go (in_word : bool) (s : string) : nat :=
  match s with
  | EmptyString => 0
  | String c s' =>
      if is_space c then count_words_go false s'
      else (if in_word then 0 else 1) + count_words_go true s'
  end.
Definition count_words (s : string) : nat := count_words_go false s.

(** Every character of [s] is whitespace ([s] may be empty). *)
Fixpoint all_space (s : string) : bool :=
  match s with
  | EmptyString => true
  | String c s' => is_space c && all_space s'
  end.

End PyStr.


(* ===================================================================== *)
(** ** Exceptions, outcomes and the world the program runs in *)
(* ===================================================================== *)

(** Where an exception raised outside [app.py] comes from. *)
Inductive origin : Type :=
| TempFile      (* writing the staged copy: [tmp_file.write] *)
| Rasterizer    (* [pdf2image.convert_from_path] *)
| OcrEngine.    (* [pytesseract.image_to_string] *)

(** The exceptions a run can meet.  [Raised o msg] is whatever the
    collaborator [o] raised, with [msg] its [str(e)]; the other two are
    the interpreter's own. *)
Inductive exn : Type :=
| Raised (o : origin) (msg : string)
| FileNotFoundError (path : string)
| ZeroDivisionError.

(** [str(e)] *)
Definition str (e : exn) : string :=
  match e with
  | Raised _ msg => msg
  | FileNotFoundError path => "[Errno 2] No such file or directory: '" +:+ path +:+ "'"
  | ZeroDivisionError => "division by zero"
  end.

(** A call either returns a value or raises. *)
Inductive outcome (A : Type) : Type :=
| Return (a : A)
| Raise (e : exn).
Arguments Return {A} a.
Arguments Raise {A} e.

(** The object handed to [pdf_to_text]: Streamlit's [UploadedFile], a
    byte stream with a name and a read position. *)
Record UploadedFile : Type := {
  name : string;
  data : list byte;
  pos : nat
}.

(** A freshly uploaded file: the read position is at the start. *)
Definition upload (n : string) (d : list byte) : UploadedFile :=
  {| name := n; data := d; pos := 0 |}.

(** [pdf_file.read()]: everything from the read position on.  The upload
    is kept as a value; [after_read] is the object once it has been read. *)
Definition read (pdf_file : UploadedFile) : list byte :=
  drop (pos pdf_file) (data pdf_file).

(** The stream after [read()]: the position is at the end. *)
Definition after_read (pdf_file : UploadedFile) : UploadedFile :=
  {| name := name pdf_file; data := data pdf_file;
     pos := Nat.max (pos pdf_file) (length (data pdf_file)) |}.

(** Texts the program shows; the constructors stand for the literals of
    [app.py]. *)
Inductive message : Type :=
| ProcessingPage (i n : nat)       (* f"Processing page {i}/{len(pages)}..." *)
| OcrComplete                      (* "OCR processing complete!" *)
| ExtractionCompleted              (* "Text extraction completed!" *)
| NoTextExtracted                  (* "No text could be extracted from the PDF. ..." *)
| ErrorProcessing (detail : string) (* f"Error processing PDF: {str(e)}" *)
| CheckNotCorrupted.               (* "Make sure the PDF file is not corrupted ..." *)

Section Pipeline.

(** A page image, as the rasterizer produces it. *)
Variable image : Type.

(** What the program does to the outside, in program order. *)
Inductive event : Type :=
| StProgress (value : nat)              (* [st.progress(0)] *)
| StEmpty                               (* [st.empty()] *)
| StatusText (m : message)              (* [status_text.text(m)] *)
| ProgressSet (i n : nat)               (* [progress_bar.progress(i / n)] *)
| RasterCall (path : string)            (* [convert_from_path(path)] *)
| OcrCall (page : image)                (* [pytesseract.image_to_string(page)] *)
| StSuccess (m : message)               (* [st.success(m)] *)
| StWarning (m : message)               (* [st.warning(m)] *)
| StError (m : message)                 (* [st.error(m)] *)
| StInfo (m : message)                  (* [st.info(m)] *)
| StMetric (label : string) (value : nat)
| StTextArea (value : string)
| StDownloadButton (data file_name mime : string).

(** The state a run reads and writes: the files on disk and the trace. *)
Record World : Type := {
  fs : gmap string (list byte);
  trace : list event
}.

(** The collaborators, as functions of what they are given.
    - [tmp_name files]: the name [NamedTemporaryFile] picks;
    - [tmp_write bytes]: [None] when the write succeeds, the error text
      when it raises (disk full, quota, ...);
    - [convert bytes]: the page images of a PDF, or the error text;
    - [image_to_string page]: the text of a page, or the error text. *)
Record Externals : Type := {
  tmp_name : gmap string (list byte) -> string;
  tmp_write : list byte -> option string;
  convert : list byte -> string + list image;
  image_to_string : image -> string + string
}.

Variable env : Externals.

(** Computations: state passing with exceptions. *)
Definition M (A : Type) : Type := World -> outcome A * World.

#[local] Instance M_ret : MRet M := fun A a w => (Return a, w).

#[local] Instance M_bind : MBind M := fun A B k m w =>
  match m w with
  | (Return a, w') => k a w'
  | (Raise e, w') => (Raise e, w')
  end.

Definition raise {A : Type} (e : exn) : M A := fun w => (Raise e, w).

(** [try: body finally: final].  When [final] raises, its exception
    replaces whatever [body] did. *)
Definition try_finally {A : Type} (body : M A) (final : M unit) : M A :=
  fun w =>
    let (r, w1) := body w in
    match final w1 with
    | (Return _, w2) => (r, w2)
    | (Raise e, w2) => (Raise e, w2)
    end.

(** [try: body except Exception as e: handler(e)]; every [exn] is an
    [Exception]. *)
Definition try_except {A : Type} (body : M A) (handler : exn -> M A) : M A :=
  fun w =>
    match body w with
    | (Return a, w1) => (Return a, w1)
    | (Raise e, w1) => handler e w1
    end.

(** Append one event to the trace. *)
Definition emit (e : event) : M unit :=
  fun w => (Return tt, {| fs := fs w; trace := trace w ++ [e] |}).

(** [tempfile.NamedTemporaryFile(delete=False, suffix='.pdf')]: an empty
    file appears under the chosen name; the name is the handle. *)
Definition NamedTemporaryFile : M string :=
  fun w =>
    let p := tmp_name env (fs w) in
    (Return p, {| fs := <[p := []]> (fs w); trace := trace w |}).

(** [tmp_file.write(bytes)] *)
Definition tmp_file_write (tmp_file : string) (bytes : list byte) : M unit :=
  fun w =>
    match tmp_write env bytes with
    | Some msg => (Raise (Raised TempFile msg), w)
    | None => (Return tt, {| fs := <[tmp_file := bytes]> (fs w); trace := trace w |})
    end.

(** [convert_from_path(path)]: the rasterizer reads the file at [path]. *)
Definition convert_from_path (path : string) : M (list image) :=
  fun w =>
    let w' := {| fs := fs w; trace := trace w ++ [RasterCall path] |} in
    match fs w !! path with
    | None => (Raise (FileNotFoundError path), w')
    | Some bytes =>
        match convert env bytes with
        | inl msg => (Raise (Raised Rasterizer msg), w')
        | inr pages => (Return pages, w')
        end
    end.

(** [pytesseract.image_to_string(page)] *)
Definition pytesseract_image_to_string (page : image) : M string :=
  _ ← emit (OcrCall page);
  match image_to_string env page with
  | inl msg => raise (Raised OcrEngine msg)
  | inr text => mret text
  end.

(** [os.unlink(path)] *)
Definition os_unlink (path : string) : M unit :=
  fun w =>
    match fs w !! path with
    | None => (Raise (FileNotFoundError path), w)
    | Some _ => (Return tt, {| fs := delete path (fs w); trace := trace w |})
    end.

(** [i / n] on integers: the quotient is kept as the pair; a zero
    divisor raises. *)
Definition truediv (i n : nat) : M (nat * nat) :=
  match n with
  | O => raise ZeroDivisionError
  | S _ => mret (i, n)
  end.

(** [progress_bar.progress(value)] *)
Definition progress_bar_progress (value : nat * nat) : M unit :=
  emit (ProgressSet (fst value) (snd value)).

(** The body of [for i, page in enumerate(pages, start=1)], lines 25-30:
    [rest] is what remains to iterate, [i] the index of its head and
    [full_text] the list built so far. *)
Fixpoint ocr_loop (pages : list image) (i : nat) (rest : list image)
         (full_text : list string) : M (list string) :=
  match rest with
  | [] => mret full_text
  | page :: rest' =>
      _ ← emit (StatusText (ProcessingPage i (length pages)));
      value ← truediv i (length pages);
      _ ← progress_bar_progress value;
      text ← pytesseract_image_to_string page;
      ocr_loop pages (S i) rest' (full_text ++ [text])
  end.

(** [pdf_to_text(pdf_file)], lines 8-37.  The first three lines are the
    [with] block: leaving it closes the file and, with [delete=False],
    keeps it on disk, also when the block is left by an exception. *)
Definition pdf_to_text (pdf_file : UploadedFile) : M string :=
  tmp_file_path ←
    (tmp_file ← NamedTemporaryFile;
     _ ← tmp_file_write tmp_file (read pdf_file);
     mret tmp_file);
  try_finally
    (pages ← convert_from_path tmp_file_path;
     _ ← emit (StProgress 0);
     _ ← emit StEmpty;
     full_text ← ocr_loop pages 1 pages [];
     _ ← emit (StatusText OcrComplete);
     mret (PyStr.join PyStr.newline full_text))
    (os_unlink tmp_file_path).

(** The name offered for the download, line 94. *)
Definition download_name (original : string) : string :=
  PyStr.replace original ".pdf" EmptyString +:+ "_extracted.txt".

(** What [main] does with an extracted text, lines 68-99. *)
Definition show_result (uploaded_file : UploadedFile) (extracted_text : string) : M unit :=
  if PyStr.truthy (PyStr.strip extracted_text) then
    _ ← emit (StSuccess ExtractionCompleted);
    _ ← emit (StMetric "Characters" (String.length extracted_text));
    _ ← emit (StMetric "Words" (PyStr.count_words extracted_text));
    _ ← emit (StMetric "Lines" (PyStr.count_lines extracted_text));
    _ ← emit (StTextArea extracted_text);
    emit (StDownloadButton extracted_text (download_name (name uploaded_file)) "text/plain")
  else
    emit (StWarning NoTextExtracted).

(** The processing branch of [main], lines 56-103: [uploaded_file] is what
    the uploader returned and [clicked] what the button returned.  The
    page decoration (title, file details, help texts) is left out. *)
Definition main (uploaded_file : option UploadedFile) (clicked : bool) : M unit :=
  match uploaded_file with
  | None => mret tt
  | Some f =>
      if clicked then
        try_except
          (extracted_text ← pdf_to_text f;
           show_result f extracted_text)
          (fun e =>
             _ ← emit (StError (ErrorProcessing (str e)));
             emit (StInfo CheckNotCorrupted))
      else mret tt
  end.

End Pipeline.

Arguments StProgress {image} value.
Arguments StEmpty {image}.
Arguments StatusText {image} m.
Arguments ProgressSet {image} i n.
Arguments RasterCall {image} path.
Arguments OcrCall {image} page.
Arguments StSuccess {image} m.
Arguments StWarning {image} m.
Arguments StError {image} m.
Arguments StInfo {image} m.
Arguments StMetric {image} label value.
Arguments StTextArea {image} value.
Arguments StDownloadButton {image} data file_name mime.
Arguments fs {image} w.
Arguments trace {image} w.
Arguments Build_World {image} fs trace.
Arguments tmp_name {image} e files.
Arguments tmp_write {image} e bytes.
Arguments convert {image} e bytes.
Arguments image_to_string {image} e page.
Arguments Build_Externals {image} tmp_name tmp_write convert image_to_string.
Arguments M image A : clear implicits.
Arguments try_finally {image A} body final w.
Arguments try_except {image A} body handler w.
Arguments emit {image} e w.
Arguments NamedTemporaryFile {image} env w.
Arguments tmp_file_write {image} env tmp_file bytes w.
Arguments convert_from_path {image} env path w.
Arguments pytesseract_image_to_string {image} env page.
Arguments os_unlink {image} path w.
Arguments truediv {image} i n.
Arguments progress_bar_progress {image} value.
Arguments ocr_loop {image} env pages i rest full_text.
Arguments pdf_to_text {image} env pdf_file.
Arguments show_result {image} uploaded_file extracted_text.
Arguments main {image} env uploaded_file clicked.

(* ===================================================================== *)
(** ** Observations on traces and on runs *)
(* ===================================================================== *)

Section Observers.

Context {image : Type}.

(** The reports the progress bar received: [(i, n)] for each
    [progress_bar.progress(i / n)], in order. *)
Fixpoint progress_reports (t : list (event image)) : list (nat * nat) :=
  match t with
  | [] => []
  | ProgressSet i n :: t' => (i, n) :: progress_reports t'
  | _ :: t' => progress_reports t'
  end.

(** The reports the status line received: [(i, n)] for each
    "Processing page i/n...", in order. *)
Fixpoint status_reports (t : list (event image)) : list (nat * nat) :=
  match t with
  | [] => []
  | StatusText (ProcessingPage i n) :: t' => (i, n) :: status_reports t'
  | _ :: t' => status_reports t'
  end.

(** The pages handed to the OCR engine, in order. *)
Fixpoint ocr_calls (t : list (event image)) : list image :=
  match t with
  | [] => []
  | OcrCall page :: t' => page :: ocr_calls t'
  | _ :: t' => ocr_calls t'
  end.

(** The events a run appended: the trace after it, without the trace
    before it. *)
Definition appended (before after : World image) : list (event image) :=
  drop (length (trace before)) (trace after).

Variable env : Externals image.

(** The OCR engine applied to the pages in order, up to the first
    failure. *)
Fixpoint ocr_all (pages : list image) : string + list string :=
  match pages with
  | [] => inr []
  | page :: rest =>
      match image_to_string env page with
      | inl msg => inl msg
      | inr text =>
          match ocr_all rest with
          | inl msg => inl msg
          | inr texts => inr (text :: texts)
          end
      end
  end.

(** The events of the page loop over [rest], whose head has index [i],
    in a document of [n] pages. *)
Fixpoint loop_trace (n i : nat) (rest : list image) : list (event image) :=
  match rest with
  | [] => []
  | page :: rest' =>
      StatusText (ProcessingPage i n) :: ProgressSet i n :: OcrCall page ::
      match image_to_string env page with
      | inl _ => []
      | inr _ => loop_trace n (S i) rest'
      end
  end.

(** The reports [(i, n)], [(i+1, n)], ... for [k] pages. *)
Definition reports_from (i n k : nat) : list (nat * nat) :=
  map (fun j => (j, n)) (seq i k).

(** The events of a whole run once the staged copy is written. *)
Definition staged_trace (p : string) (bytes : list byte) : list (event image) :=
  RasterCall p ::
  match convert env bytes with
  | inl _ => []
  | inr pages =>
      StProgress 0 :: StEmpty :: loop_trace (length pages) 1 pages ++
      match ocr_all pages with
      | inl _ => []
      | inr _ => [StatusText OcrComplete]
      end
  end.

(** The outcome of a whole run once the staged copy is written. *)
Definition staged_outcome (bytes : list byte) : outcome string :=
  match convert env bytes with
  | inl msg => Raise (Raised Rasterizer msg)
  | inr pages =>
      match ocr_all pages with
      | inl msg => Raise (Raised OcrEngine msg)
      | inr texts => Return (PyStr.join PyStr.newline texts)
      end
  end.

(** Running [pdf_to_text] and keeping the outcome, the files left behind
    and the events appended. *)
Definition outcome_of (pdf_file : UploadedFile) (w : World image) : outcome string :=
  fst (pdf_to_text env pdf_file w).
Definition world_after (pdf_file : UploadedFile) (w : World image) : World image :=
  snd (pdf_to_text env pdf_file w).
Definition events_of (pdf_file : UploadedFile) (w : World image) : list (event image) :=
  appended w (world_after pdf_file w).

(** The same for the processing branch of [main] after a click. *)
Definition main_events (uploaded_file : UploadedFile) (w : World image) : list (event image) :=
  appended w (snd (main env (Some uploaded_file) true w)).

(** What [main] shows for an outcome of [pdf_to_text]. *)
Definition shown (f : UploadedFile) (r : outcome string) : list (event image) :=
  match r with
  | Return text =>
      if PyStr.truthy (PyStr.strip text) then
        [StSuccess ExtractionCompleted;
         StMetric "Characters" (String.length text);
         StMetric "Words" (PyStr.count_words text);
         StMetric "Lines" (PyStr.count_lines text);
         StTextArea text;
         StDownloadButton text (download_name (name f)) "text/plain"]
      else [StWarning NoTextExtracted]
  | Raise e => [StError (ErrorProcessing (str e)); StInfo CheckNotCorrupted]
  end.

End Observers.

(** The page texts joined as the description words it: the first text, and
    before every later text one newline for the page boundary crossed. *)
Fixpoint after_boundaries (texts : list string) : string :=
  match texts with
  | [] => EmptyString
  | t :: rest => PyStr.newline +:+ t +:+ after_boundaries rest
  end.

Definition joined_pages (texts : list string) : string :=
  match texts with
  | [] => EmptyString
  | t :: rest => t +:+ after_boundaries rest
  end.

(** Total number of characters, and of newlines, in a list of texts. *)
Definition total_length (texts : list string) : nat :=
  list_sum (map String.length texts).
Definition total_newlines (texts : list string) : nat :=
  list_sum (map (PyStr.count_char PyStr.nl) texts).

(** The reading under which progress follows the page's OCR: a run whose
    OCR fails on the page after [before] has reported the pages of [before]
    and no other. *)
Definition reports_follow_ocr {image : Type} (env : Externals image) : Prop :=
  forall (f : UploadedFile) (w : World image)
         (before after : list image) (page : image)
         (texts : list string) (msg : string),
    tmp_write env (read f) = None ->
    convert env (read f) = inr (before ++ page :: after) ->
    map (image_to_string env) before = map inr texts ->
    image_to_string env page = inl msg ->
    progress_reports (events_of env f w)
    = reports_from 1 (length (before ++ page :: after)) (length before).

(** Whether the character [.] occurs in [s]. *)
Fixpoint has_dot (s : string) : bool :=
  match s with
  | EmptyString => false
  | String c s' => Ascii.eqb c "." || has_dot s'
  end.

(** The download name with the [.pdf] suffix removed, as the interface
    description words it. *)
Definition suffix_download_name (original : string) : string :=
  PyStr.removesuffix original ".pdf" +:+ "_extracted.txt".

(** The paths handed to the rasterizer, in order. *)
Fixpoint raster_calls {image : Type} (t : list (event image)) : list string :=
  match t with
  | [] => []
  | RasterCall path :: t' => path :: raster_calls t'
  | _ :: t' => raster_calls t'
  end.

(** [old in s]: [old] occurs somewhere in [s]. *)
Fixpoint occurs (old s : string) : bool :=
  String.prefix old s
  || match s with
     | EmptyString => false
     | String _ s' => occurs old s'
     end.

(** What [main] shows for a text with something to read in it, lines
    69-96. *)
Definition success_block {image : Type} (f : UploadedFile) (text : string)
  : list (event image) :=
  [StSuccess ExtractionCompleted;
   StMetric "Characters" (String.length text);
   StMetric "Words" (PyStr.count_words text);
   StMetric "Lines" (PyStr.count_lines text);
   StTextArea text;
   StDownloadButton text (download_name (name f)) "text/plain"].

(** Total number of words in a list of texts. *)
Definition total_words (texts : list string) : nat :=
  list_sum (map PyStr.count_words texts).

(** How an exception can leave [pdf_to_text] in the words of the interface
    description: wrapped in an [ExtractionError] of the application's own
    that carries it as its cause, or as it was raised. *)
Inductive raised_form : Type :=
| ExtractionError (cause : exn)
| AsRaised (e : exn).

(** How an exception does leave [pdf_to_text].  [app.py] declares no
    exception class and has no [raise] statement, and the [try] of lines
    16-37 has a [finally] and no [except]: what a collaborator raises
    passes through as it is. *)
Definition leaves_as (r : outcome string) : option raised_form :=
  match r with
  | Return _ => None
  | Raise e => Some (AsRaised e)
  end.

(** The reading under which a rejected document gives an
    [ExtractionError] carrying the rasterizer's exception. *)
Definition rejection_raises_extraction_error
    {image : Type} (env : Externals image) : Prop :=
  forall (f : UploadedFile) (w : World image) (msg : string),
    convert env (read f) = inl msg ->
    leaves_as (outcome_of env f w)
    = Some (ExtractionError (Raised Rasterizer msg)).

(** [pdf_to_text(pdf_file)] as a call on the upload object: with the
    outcome and the world, the object as the call leaves it.  Line 13
    evaluates [pdf_file.read()] before anything in [pdf_to_text] can raise,
    so the object has been read to its end on every exit path. *)
Definition call_pdf_to_text {image : Type} (env : Externals image)
    (pdf_file : UploadedFile) (w : World image)
  : outcome string * UploadedFile * World image :=
  let r := pdf_to_text env pdf_file w in
  (fst r, after_read pdf_file, snd r).

(** Two calls in a row on the same upload object: the second call gets
    the object and the world as the first call left them. *)
Definition pdf_to_text_twice {image : Type} (env : Externals image)
    (pdf_file : UploadedFile) (w : World image)
  : outcome string * outcome string :=
  let '(r1, pdf_file1, w1) := call_pdf_to_text env pdf_file w in
  let '(r2, _, _) := call_pdf_to_text env pdf_file1 w1 in
  (r1, r2).

(** The reading under which nothing is carried from a call to the next:
    when a call on an upload returns a text, a second call on the same
    upload returns the same text. *)
Definition same_upload_same_text {image : Type} (env : Externals image) : Prop :=
  forall (pdf_file : UploadedFile) (w : World image) (r : string),
    fst (pdf_to_text_twice env pdf_file w) = Return r ->
    snd (pdf_to_text_twice env pdf_file w) = Return r.

(* ===================================================================== *)
(** ** Small collaborators to run the program on *)
(* ===================================================================== *)

Module Toy.

(** A page image is the byte it was drawn from. *)
Definition image : Type := byte.

(** A document is the byte [%] followed by one byte per page; anything
    else is not a PDF. *)
Definition convert (bytes : list byte) : string + list image :=
  match bytes with
  | x25 :: pages => inr pages
  | _ => inl "Unable to get page count."
  end.

(** The page [!] cannot be read, the page [-] is blank, any other page
    reads as its own character. *)
Definition image_to_string (page : image) : string + string :=
  match page with
  | x21 => inl "tesseract failed"
  | x2d => inr EmptyString
  | b => inr (String (ascii_of_byte b) EmptyString)
  end.

(** The first of two names that is not taken. *)
Definition tmp_name (files : gmap string (list byte)) : string :=
  match files !! "/tmp/tmp0.pdf" with
  | None => "/tmp/tmp0.pdf"
  | Some _ => "/tmp/tmp1.pdf"
  end.

(** A temporary directory with room for [capacity] bytes. *)
Definition tmp_write (capacity : nat) (bytes : list byte) : option string :=
  if (length bytes <=? capacity)%nat then None
  else Some "[Errno 28] No space left on device".

Definition env (capacity : nat) : Externals image :=
  Build_Externals tmp_name (tmp_write capacity) convert image_to_string.

(** A world with no files and nothing shown yet. *)
Definition empty_world : World image := Build_World ∅ [].

(** A world with one other file and one earlier event. *)
Definition used_world : World image :=
  Build_World {[ "/tmp/tmp0.pdf" := [x00] ]} [StEmpty].

(** [%A-B]: three pages reading "A", nothing and "B". *)
Definition doc_AB : UploadedFile := upload "doc.pdf" [x25; x41; x2d; x42].

(** [%A!B]: the second page cannot be read. *)
Definition doc_bad_page : UploadedFile := upload "scan.pdf" [x25; x41; x21; x42].

(** [%!]: the only page cannot be read. *)
Definition doc_one_bad_page : UploadedFile := upload "one.pdf" [x25; x21].

(** [%]: a document without pages. *)
Definition doc_no_pages : UploadedFile := upload "empty.pdf" [x25].

(** [% -]: a page reading " " and a blank page. *)
Definition doc_blank : UploadedFile := upload "blank.pdf" [x25; x20; x2d].

(** [hello]: not a PDF. *)
Definition doc_not_pdf : UploadedFile :=
  upload "notes.pdf" [x68; x65; x6c; x6c; x6f].

(** [%AB C]: four pages reading "A", "B", " " and "C". *)
Definition doc_words : UploadedFile :=
  upload "words.pdf" [x25; x41; x42; x20; x43].

End Toy.

(* ===================================================================== *)
(** ** The string operations on small inputs *)
(* ===================================================================== *)

Example join_three : PyStr.join PyStr.newline ["A"; EmptyString; "B"] = "A" +:+ PyStr.newline +:+ PyStr.newline +:+ "B".
Proof. reflexivity. Qed.

Example strip_ex : PyStr.strip "  a b  " = "a b".
Proof. reflexivity. Qed.

Example replace_ex : PyStr.replace "doc.pdf" ".pdf" EmptyString = "doc".
Proof. reflexivity. Qed.

Example replace_ex2 : PyStr.replace "a.pdf.b.pdf" ".pdf" EmptyString = "a.b".
Proof. reflexivity. Qed.

Example replace_ex3 : PyStr.replace "aaa" "aa" "b" = "ba".
Proof. reflexivity. Qed.

Example removesuffix_ex : PyStr.removesuffix "a.pdf.b.pdf" ".pdf" = "a.pdf.b".
Proof. reflexivity. Qed.

Example words_ex : PyStr.count_words " ab  c d " = 3.
Proof. reflexivity. Qed.

(* ===================================================================== *)
(** ** What a run computes *)
(* ===================================================================== *)

Ltac unfold_M :=
  unfold mbind, mret, M_bind, M_ret, raise, emit, progress_bar_progress,
    pytesseract_image_to_string in *; simpl in *.

Section Run.

Context {image : Type} (env : Externals image).

Lemma world_eta (w : World image) : Build_World (fs w) (trace w) = w.
Proof. by destruct w. Qed.

(** The page loop: its outcome is that of the OCR engine over the
    remaining pages, and it appends [loop_trace]. *)
Lemma ocr_loop_run (pages rest : list image) :
  forall (done : list image) (i : nat) (acc : list string) (w : World image),
    pages = done ++ rest -> i = S (length done) ->
    ocr_loop env pages i rest acc w =
    (match ocr_all env rest with
     | inl msg => Raise (Raised OcrEngine msg)
     | inr texts => Return (acc ++ texts)
     end,
     Build_World (fs w) (trace w ++ loop_trace env (length pages) i rest)).
Proof.
  induction rest as [|page rest' IH]; intros done i acc w Hpages Hi.
  - simpl. unfold_M. by rewrite !app_nil_r, world_eta.
  - assert (Hlen : exists k, length pages = S k).
    { subst pages. rewrite length_app. simpl. exists (length done + length rest'). lia. }
    destruct Hlen as [k Hk].
    simpl. unfold truediv. rewrite Hk. unfold_M. rewrite <- Hk.
    destruct (image_to_string env page) as [msg|text] eqn:Hocr; simpl.
    + unfold_M. by rewrite <- !app_assoc.
    + rewrite (IH (done ++ [page]) (S i) (acc ++ [text])).
      * simpl. destruct (ocr_all env rest') as [msg|texts]; simpl;
          rewrite <- ?app_assoc; simpl; reflexivity.
      * by rewrite <- app_assoc.
      * rewrite length_app. simpl. lia.
Qed.


(** [pdf_to_text], run: either the write of the staged copy fails, and
    the empty temporary file stays; or the outcome is [staged_outcome],
    the temporary file is gone and [staged_trace] was appended. *)
Lemma pdf_to_text_run (pdf_file : UploadedFile) (w : World image) :
  pdf_to_text env pdf_file w =
  let p := tmp_name env (fs w) in
  match tmp_write env (read pdf_file) with
  | Some msg =>
      (Raise (Raised TempFile msg), Build_World (<[p := []]> (fs w)) (trace w))
  | None =>
      (staged_outcome env (read pdf_file),
       Build_World (delete p (fs w)) (trace w ++ staged_trace env p (read pdf_file)))
  end.
Proof.
  unfold pdf_to_text, NamedTemporaryFile, tmp_file_write, try_finally,
    convert_from_path, os_unlink, staged_outcome, staged_trace.
  unfold_M.
  destruct (tmp_write env (read pdf_file)) as [msg|]; [reflexivity|].
  simpl. rewrite !lookup_insert_eq.
  destruct (convert env (read pdf_file)) as [msg|pages]; simpl.
  - rewrite lookup_insert_eq. by rewrite !delete_insert_eq.
  - rewrite (ocr_loop_run pages pages [] 1 []); [|done|done].
    simpl.
    destruct (ocr_all env pages) as [msg|texts]; simpl;
      rewrite lookup_insert_eq, !delete_insert_eq, <- ?app_assoc; simpl;
      try rewrite app_nil_r; reflexivity.
Qed.

End Run.

(* ===================================================================== *)
(** ** Lemmas on the observers *)
(* ===================================================================== *)

Section ObserverFacts.

Context {image : Type}.
Implicit Types t u : list (event image).

Lemma progress_reports_app t u :
  progress_reports (t ++ u) = progress_reports t ++ progress_reports u.
Proof.
  induction t as [|e t IH]; [done|].
  destruct e; simpl; rewrite ?IH; reflexivity.
Qed.

Lemma status_reports_app t u :
  status_reports (t ++ u) = status_reports t ++ status_reports u.
Proof.
  induction t as [|e t IH]; [done|].
  destruct e as [| |m| | | | | | | | | |]; simpl; rewrite ?IH; try reflexivity.
  destruct m; simpl; rewrite ?IH; reflexivity.
Qed.

Lemma ocr_calls_app t u : ocr_calls (t ++ u) = ocr_calls t ++ ocr_calls u.
Proof.
  induction t as [|e t IH]; [done|].
  destruct e; simpl; rewrite ?IH; reflexivity.
Qed.

Lemma appended_app (w : World image) files t :
  appended w (Build_World files (trace w ++ t)) = t.
Proof. unfold appended. simpl. by rewrite drop_app_length. Qed.

Lemma appended_nil (w : World image) files :
  appended w (Build_World files (trace w)) = [].
Proof. unfold appended. simpl. by rewrite drop_all. Qed.

Variable env : Externals image.

Lemma ocr_all_map (pages : list image) :
  forall texts : list string,
    map (image_to_string env) pages = map inr texts ->
    ocr_all env pages = inr texts.
Proof.
  induction pages as [|p pages IH]; intros [|t texts] H; simpl in *;
    try discriminate; [done|].
  injection H as Hp Hrest. rewrite Hp, (IH texts Hrest). reflexivity.
Qed.

Lemma ocr_all_length (pages : list image) :
  forall texts : list string,
    ocr_all env pages = inr texts -> length texts = length pages.
Proof.
  induction pages as [|p pages IH]; intros texts H; simpl in *.
  - by injection H as <-.
  - destruct (image_to_string env p); [discriminate|].
    destruct (ocr_all env pages) as [|ts]; [discriminate|].
    injection H as <-. simpl. by rewrite (IH ts).
Qed.

Lemma ocr_all_inv (pages : list image) :
  forall texts : list string,
    ocr_all env pages = inr texts ->
    map (image_to_string env) pages = map inr texts.
Proof.
  induction pages as [|p pages IH]; intros texts H; simpl in *.
  - by injection H as <-.
  - destruct (image_to_string env p) as [|t]; [discriminate|].
    destruct (ocr_all env pages) as [|ts]; [discriminate|].
    injection H as <-. simpl. by rewrite (IH ts).
Qed.

(** The OCR engine over [before ++ page :: after] when it first fails on
    [page]. *)
Lemma ocr_all_fails (before after : list image) (page : image) msg :
  forall texts : list string,
    map (image_to_string env) before = map inr texts ->
    image_to_string env page = inl msg ->
    ocr_all env (before ++ page :: after) = inl msg.
Proof.
  induction before as [|p before IH]; intros [|t texts] H Hp; simpl in *;
    try discriminate.
  - by rewrite Hp.
  - injection H as Hq Hrest. rewrite Hq, (IH texts Hrest Hp). reflexivity.
Qed.

(** The loop's events when every page is read. *)
Lemma loop_trace_ok (n : nat) (pages : list image) :
  forall (i : nat) (texts : list string),
    ocr_all env pages = inr texts ->
    progress_reports (loop_trace env n i pages) = reports_from i n (length pages)
    /\ status_reports (loop_trace env n i pages) = reports_from i n (length pages)
    /\ ocr_calls (loop_trace env n i pages) = pages.
Proof.
  induction pages as [|p pages IH]; intros i texts H; simpl in *; [done|].
  destruct (image_to_string env p); [discriminate|].
  destruct (ocr_all env pages) as [|ts]; [discriminate|].
  destruct (IH (S i) ts eq_refl) as (-> & -> & ->). done.
Qed.

(** The loop's events when the engine first fails on [page]. *)
Lemma loop_trace_fails (n : nat) (before after : list image) (page : image) msg :
  forall (i : nat) (texts : list string),
    map (image_to_string env) before = map inr texts ->
    image_to_string env page = inl msg ->
    progress_reports (loop_trace env n i (before ++ page :: after))
      = reports_from i n (S (length before))
    /\ status_reports (loop_trace env n i (before ++ page :: after))
      = reports_from i n (S (length before))
    /\ ocr_calls (loop_trace env n i (before ++ page :: after)) = before ++ [page].
Proof.
  induction before as [|p before IH]; intros i [|t texts] H Hp; simpl in *;
    try discriminate.
  - by rewrite Hp.
  - injection H as Hq Hrest. rewrite Hq.
    destruct (IH (S i) texts Hrest Hp) as (-> & -> & ->). done.
Qed.

(** Outcome, events and files of a run, from [pdf_to_text_run]. *)
Lemma outcome_of_run (f : UploadedFile) (w : World image) :
  outcome_of env f w =
  match tmp_write env (read f) with
  | Some msg => Raise (Raised TempFile msg)
  | None => staged_outcome env (read f)
  end.
Proof.
  unfold outcome_of. rewrite pdf_to_text_run. simpl.
  by destruct (tmp_write env (read f)).
Qed.

Lemma events_of_run (f : UploadedFile) (w : World image) :
  events_of env f w =
  match tmp_write env (read f) with
  | Some _ => []
  | None => staged_trace env (tmp_name env (fs w)) (read f)
  end.
Proof.
  unfold events_of, world_after. rewrite pdf_to_text_run. simpl.
  destruct (tmp_write env (read f)); simpl.
  - apply appended_nil.
  - apply appended_app.
Qed.

Lemma files_after_run (f : UploadedFile) (w : World image) :
  fs (world_after env f w) =
  match tmp_write env (read f) with
  | Some _ => <[tmp_name env (fs w) := []]> (fs w)
  | None => delete (tmp_name env (fs w)) (fs w)
  end.
Proof.
  unfold world_after. rewrite pdf_to_text_run. simpl.
  by destruct (tmp_write env (read f)).
Qed.

End ObserverFacts.

Section MainFacts.

Context {image : Type} (env : Externals image).


Lemma show_result_run (f : UploadedFile) (text : string) (w : World image) :
  show_result f text w =
  (Return tt, Build_World (fs w) (trace w ++ shown f (Return text))).
Proof.
  unfold show_result, shown.
  destruct (PyStr.truthy (PyStr.strip text)); unfold_M;
    rewrite <- ?app_assoc; reflexivity.
Qed.

(** After a click, [main] appends the events of [pdf_to_text] and then
    what it shows for the outcome. *)
Lemma main_events_run (f : UploadedFile) (w : World image) :
  main_events env f w = events_of env f w ++ shown f (outcome_of env f w).
Proof.
  rewrite events_of_run, outcome_of_run.
  unfold main_events, main, try_except. unfold mbind, M_bind.
  rewrite pdf_to_text_run. simpl.
  destruct (tmp_write env (read f)) as [msg|]; simpl.
  - unfold_M. rewrite <- !app_assoc. apply appended_app.
  - destruct (staged_outcome env (read f)) as [text|e]; simpl.
    + rewrite show_result_run. simpl. rewrite <- app_assoc. apply appended_app.
    + unfold_M. rewrite <- !app_assoc. apply appended_app.
Qed.

End MainFacts.

(* ===================================================================== *)
(** ** Lemmas on strings *)
(* ===================================================================== *)

Section StringFacts.

Implicit Types s r : string.

Lemma append_cons c s r : String c s +:+ r = String c (s +:+ r).
Proof. reflexivity. Qed.

Lemma append_empty_l r : EmptyString +:+ r = r.
Proof. reflexivity. Qed.

Lemma append_empty_r s : s +:+ EmptyString = s.
Proof.
  induction s as [|c s IH]; [done|]. by rewrite append_cons, IH.
Qed.

Lemma length_append s r :
  String.length (s +:+ r) = String.length s + String.length r.
Proof.
  induction s as [|c s IH]; [done|].
  rewrite append_cons. simpl. by rewrite IH.
Qed.

Lemma count_char_append c s r :
  PyStr.count_char c (s +:+ r) = PyStr.count_char c s + PyStr.count_char c r.
Proof.
  induction s as [|d s IH]; [done|].
  rewrite append_cons. simpl. rewrite IH. lia.
Qed.

Lemma all_space_append s r :
  PyStr.all_space (s +:+ r) = PyStr.all_space s && PyStr.all_space r.
Proof.
  induction s as [|c s IH]; [done|].
  rewrite append_cons. simpl. rewrite IH. by rewrite andb_assoc.
Qed.

Lemma lstrip_all_space s : PyStr.all_space s = true -> PyStr.lstrip s = EmptyString.
Proof.
  induction s as [|c s IH]; simpl; [done|].
  intros [Hc Hs]%andb_true_iff. rewrite Hc. by apply IH.
Qed.

(** A text made of whitespace only strips to the empty string, which is
    false as a condition. *)
Lemma strip_all_space s :
  PyStr.all_space s = true -> PyStr.truthy (PyStr.strip s) = false.
Proof. intros H. unfold PyStr.strip. by rewrite (lstrip_all_space s H). Qed.

(** [join] puts one separator before every text but the first. *)
Lemma join_cons (t : string) (texts : list string) :
  PyStr.join PyStr.newline (t :: texts) = t +:+ after_boundaries texts.
Proof.
  revert t. induction texts as [|u texts IH]; intros t.
  - simpl. by rewrite append_empty_r.
  - change (PyStr.join PyStr.newline (t :: u :: texts))
      with (t +:+ PyStr.newline +:+ PyStr.join PyStr.newline (u :: texts)).
    rewrite IH. reflexivity.
Qed.

Lemma join_joined_pages (texts : list string) :
  PyStr.join PyStr.newline texts = joined_pages texts.
Proof. destruct texts as [|t texts]; [done|]. apply join_cons. Qed.

Lemma after_boundaries_length (texts : list string) :
  String.length (after_boundaries texts) = total_length texts + length texts.
Proof.
  unfold total_length.
  induction texts as [|t texts IH]; simpl; [done|].
  rewrite !length_append, IH. simpl. lia.
Qed.

Lemma after_boundaries_newlines (texts : list string) :
  PyStr.count_char PyStr.nl (after_boundaries texts)
  = total_newlines texts + length texts.
Proof.
  unfold total_newlines.
  induction texts as [|t texts IH]; simpl; [done|].
  rewrite !count_char_append, IH. simpl. lia.
Qed.

Lemma joined_pages_length (texts : list string) :
  String.length (joined_pages texts) = total_length texts + (length texts - 1).
Proof.
  destruct texts as [|t texts]; [done|]. simpl joined_pages.
  rewrite length_append, after_boundaries_length.
  unfold total_length. simpl. lia.
Qed.

Lemma joined_pages_newlines (texts : list string) :
  PyStr.count_char PyStr.nl (joined_pages texts)
  = total_newlines texts + (length texts - 1).
Proof.
  destruct texts as [|t texts]; [done|]. simpl joined_pages.
  rewrite count_char_append, after_boundaries_newlines.
  unfold total_newlines. simpl. lia.
Qed.

Lemma after_boundaries_all_space (texts : list string) :
  forallb PyStr.all_space texts = true ->
  PyStr.all_space (after_boundaries texts) = true.
Proof.
  induction texts as [|u texts IH]; simpl; [done|].
  intros [Hu Hts]%andb_true_iff.
  rewrite !all_space_append, Hu, (IH Hts). reflexivity.
Qed.

Lemma joined_pages_all_space (texts : list string) :
  forallb PyStr.all_space texts = true ->
  PyStr.all_space (joined_pages texts) = true.
Proof.
  destruct texts as [|t texts]; simpl; [done|].
  intros [Ht Hts]%andb_true_iff.
  by rewrite all_space_append, Ht, (after_boundaries_all_space texts Hts).
Qed.

Lemma substring_skip s r (k : nat) :
  String.substring (String.length s) k (s +:+ r) = String.substring 0 k r.
Proof. induction s as [|c s IH]; [done|]. rewrite append_cons. exact IH. Qed.

Lemma substring_whole s : String.substring 0 (String.length s) s = s.
Proof. induction s as [|c s IH]; simpl; [done|]. by rewrite IH. Qed.

Lemma substring_front s r :
  String.substring 0 (String.length s) (s +:+ r) = s.
Proof.
  induction s as [|c s IH]; [by destruct r|].
  rewrite append_cons. simpl. by rewrite IH.
Qed.

(** [(s + suffix).removesuffix(suffix)] is [s]. *)
Lemma removesuffix_append s suffix :
  suffix <> EmptyString -> PyStr.removesuffix (s +:+ suffix) suffix = s.
Proof.
  intros Hne. unfold PyStr.removesuffix, PyStr.endswith.
  rewrite length_append.
  replace (String.length s + String.length suffix - String.length suffix)
    with (String.length s) by lia.
  rewrite substring_skip, substring_whole, String.eqb_refl, substring_front.
  apply String.eqb_neq in Hne. rewrite Hne.
  replace (String.length suffix <=? String.length s + String.length suffix)%nat
    with true; [done|].
  symmetry. apply Nat.leb_le. lia.
Qed.

Lemma replace_go_cons (old new : string) c s :
  PyStr.replace_go old new 0 (String c s)
  = if String.prefix old (String c s)
    then new +:+ PyStr.replace_go old new (String.length old - 1) s
    else String c (PyStr.replace_go old new 0 s).
Proof. reflexivity. Qed.

Lemma prefix_other_head (a c : ascii) (old s : string) :
  Ascii.eqb c a = false -> String.prefix (String a old) (String c s) = false.
Proof.
  intros Hc.
  change (String.prefix (String a old) (String c s))
    with (if ascii_dec a c then String.prefix old s else false).
  destruct (ascii_dec a c) as [<-|_]; [|done].
  by rewrite Ascii.eqb_refl in Hc.
Qed.

(** The scan of [replace] copies a stretch without [.] unchanged. *)
Lemma replace_go_no_dot s r (new : string) :
  has_dot s = false ->
  PyStr.replace_go ".pdf" new 0 (s +:+ r)
  = s +:+ PyStr.replace_go ".pdf" new 0 r.
Proof.
  induction s as [|c s IH]; [done|]. simpl has_dot.
  intros [Hc Hs]%orb_false_iff.
  rewrite !append_cons, replace_go_cons, (prefix_other_head _ _ _ _ Hc).
  by rewrite (IH Hs).
Qed.

End StringFacts.

(* ===================================================================== *)
(** ** Facts on runs shared by the properties *)
(* ===================================================================== *)

Section RunFacts.

Context {image : Type} (env : Externals image).

(** The outcome when every page is read. *)
Lemma outcome_when_all_read
    (f : UploadedFile) (w : World image)
    (pages : list image) (texts : list string) :
  tmp_write env (read f) = None ->
  convert env (read f) = inr pages ->
  map (image_to_string env) pages = map inr texts ->
  outcome_of env f w = Return (joined_pages texts).
Proof.
  intros Hwrite Hconv Hocr.
  rewrite outcome_of_run, Hwrite. unfold staged_outcome.
  by rewrite Hconv, (ocr_all_map env pages texts Hocr), join_joined_pages.
Qed.

(** A run that returns a text wrote the staged copy, got pages from the
    rasterizer and a text for every page, and returns these texts joined. *)
Lemma successful_run_inv (f : UploadedFile) (w : World image) (r : string) :
  outcome_of env f w = Return r ->
  exists (pages : list image) (texts : list string),
    tmp_write env (read f) = None
    /\ convert env (read f) = inr pages
    /\ map (image_to_string env) pages = map inr texts
    /\ r = joined_pages texts.
Proof.
  rewrite outcome_of_run. unfold staged_outcome.
  destruct (tmp_write env (read f)); [discriminate|].
  destruct (convert env (read f)) as [|pages]; [discriminate|].
  destruct (ocr_all env pages) as [|texts] eqn:Hall; [discriminate|].
  intros H. injection H as <-. exists pages, texts.
  split; [done|]. split; [done|]. split.
  - exact (ocr_all_inv env pages texts Hall).
  - apply join_joined_pages.
Qed.

(** The events of a run in which every page is read. *)
Lemma events_when_all_read
    (f : UploadedFile) (w : World image)
    (pages : list image) (texts : list string) :
  tmp_write env (read f) = None ->
  convert env (read f) = inr pages ->
  map (image_to_string env) pages = map inr texts ->
  events_of env f w
  = [RasterCall (tmp_name env (fs w)); StProgress 0; StEmpty]
    ++ loop_trace env (length pages) 1 pages ++ [StatusText OcrComplete].
Proof.
  intros Hwrite Hconv Hocr.
  rewrite events_of_run, Hwrite. unfold staged_trace.
  by rewrite Hconv, (ocr_all_map env pages texts Hocr).
Qed.

(** The events of a run in which the OCR engine first fails on [page]. *)
Lemma events_when_page_fails
    (f : UploadedFile) (w : World image)
    (before after : list image) (page : image)
    (texts : list string) (msg : string) :
  tmp_write env (read f) = None ->
  convert env (read f) = inr (before ++ page :: after) ->
  map (image_to_string env) before = map inr texts ->
  image_to_string env page = inl msg ->
  events_of env f w
  = [RasterCall (tmp_name env (fs w)); StProgress 0; StEmpty]
    ++ loop_trace env (length (before ++ page :: after)) 1
         (before ++ page :: after).
Proof.
  intros Hwrite Hconv Hocr Hpage.
  rewrite events_of_run, Hwrite. unfold staged_trace.
  rewrite Hconv, (ocr_all_fails env before after page msg texts Hocr Hpage).
  simpl. by rewrite app_nil_r.
Qed.

(** Once the staged copy is written, the temporary file is gone when
    [pdf_to_text] finishes, whatever the outcome, and no other file has
    changed. *)
Lemma tmp_file_removed_once_written (f : UploadedFile) (w : World image) :
  tmp_write env (read f) = None ->
  fs (world_after env f w) !! tmp_name env (fs w) = None
  /\ forall path, path <> tmp_name env (fs w) ->
                  fs (world_after env f w) !! path = fs w !! path.
Proof.
  intros Hwrite. rewrite files_after_run, Hwrite. split.
  - apply lookup_delete_eq.
  - intros path Hne. by apply lookup_delete_ne.
Qed.

(** Every report of the page loop carries the page count it was given
    and an index within the pages it iterates. *)
Lemma loop_trace_reports_bounds (n : nat) (rest : list image) :
  forall i j m : nat,
    In (j, m) (progress_reports (loop_trace env n i rest)) ->
    m = n /\ i <= j < i + length rest.
Proof.
  induction rest as [|p rest IH]; intros i j m Hin; simpl in *; [done|].
  destruct Hin as [Heq|Hin].
  - injection Heq as <- <-. lia.
  - destruct (image_to_string env p); simpl in Hin; [done|].
    destruct (IH (S i) j m Hin) as (-> & Hj). lia.
Qed.

(** Splitting [l ++ c] at an element that does not occur in [c] splits
    [l]. *)
Lemma app_split_left {A : Type} (l c : list A) (x : A) :
  ~ In x c ->
  forall t1 t2 : list A,
    l ++ c = t1 ++ x :: t2 ->
    exists t2', l = t1 ++ x :: t2' /\ t2 = t2' ++ c.
Proof.
  intros Hx. induction l as [|a l IH]; intros t1 t2 H; simpl in H.
  - exfalso. apply Hx. rewrite H. apply in_elt.
  - destruct t1 as [|b t1]; simpl in H.
    + injection H as -> <-. by exists l.
    + injection H as -> H. destruct (IH t1 t2 H) as (t2' & -> & ->).
      by exists t2'.
Qed.

(** In the page loop a report for page [j] comes when the pages before
    it have been read, and the OCR call of page [j] is the next event. *)
Lemma loop_trace_split (n : nat) (rest : list image) :
  forall (i : nat) (t1 t2 : list (event image)) (j m : nat),
    loop_trace env n i rest = t1 ++ ProgressSet j m :: t2 ->
    m = n /\ i <= j
    /\ exists (page : image) (t2' : list (event image)) (texts : list string),
        rest !! (j - i) = Some page
        /\ ocr_calls t1 = take (j - i) rest
        /\ map (image_to_string env) (take (j - i) rest) = map inr texts
        /\ t2 = OcrCall page :: t2'.
Proof.
  induction rest as [|p rest IH]; intros i t1 t2 j m H; simpl in H.
  - by destruct t1.
  - destruct t1 as [|e1 [|e2 [|e3 t1]]]; simpl in H; try discriminate.
    + injection H as <- <- <- <-. rewrite Nat.sub_diag.
      split; [done|]. split; [done|].
      exists p, (match image_to_string env p with
                 | inl _ => []
                 | inr _ => loop_trace env n (S i) rest
                 end), []. by repeat split.
    + injection H as <- <- <- H.
      destruct (image_to_string env p) as [|text] eqn:Hp.
      { by destruct t1. }
      destruct (IH (S i) t1 t2 j m H)
        as (-> & Hle & page & t2' & texts & Hpage & Hcalls & Hread & ->).
      split; [done|]. split; [lia|].
      replace (j - i) with (S (j - S i)) by lia.
      exists page, t2', (text :: texts). simpl.
      rewrite Hcalls, Hp, Hread. by repeat split.
Qed.

(** What [main] shows for an exception is never the "no text" warning. *)
Lemma shown_raise_not_warning (f : UploadedFile) (e : exn) :
  shown f (Raise e) <> ([StWarning NoTextExtracted] : list (event image)).
Proof. discriminate. Qed.

End RunFacts.

(** Reading an upload a second time delivers nothing: the bytes of a
    document are those of a stream read from its start. *)
Lemma read_after_read (f : UploadedFile) : read (after_read f) = [].
Proof. unfold read, after_read. simpl. apply drop_ge. lia. Qed.

(** When the only [.] of the name is that of the [.pdf] extension, line 94
    does remove the suffix: both readings give the stem followed by
    [_extracted.txt]. *)
Lemma download_name_plain_stem (stem : string) :
  has_dot stem = false ->
  download_name (stem +:+ ".pdf") = stem +:+ "_extracted.txt"
  /\ suffix_download_name (stem +:+ ".pdf") = stem +:+ "_extracted.txt".
Proof.
  intros Hstem. unfold download_name, suffix_download_name, PyStr.replace.
  rewrite (replace_go_no_dot stem ".pdf" EmptyString Hstem).
  rewrite removesuffix_append by discriminate.
  change (PyStr.replace_go ".pdf" EmptyString 0 ".pdf") with EmptyString.
  by rewrite append_empty_r.
Qed.

(* ===================================================================== *)
(** ** Properties of the pipeline *)
(* ===================================================================== *)

(** C1.  When the staged copy is written, the rasterizer yields [pages]
    and the OCR engine reads every page, [texts] being the page texts in
    page order, [pdf_to_text] returns the page texts joined with one
    newline per page boundary: the result is [joined_pages texts], which
    is ["\n".join(texts)]; it has as many characters as the texts
    together plus one per boundary, and as many newlines as the texts
    together plus one per boundary, a document of N pages having N - 1
    boundaries. *)
Theorem pdf_to_text_joins_pages
    {image : Type} (env : Externals image)
    (f : UploadedFile) (w : World image)
    (pages : list image) (texts : list string) :
  tmp_write env (read f) = None ->
  convert env (read f) = inr pages ->
  map (image_to_string env) pages = map inr texts ->
  outcome_of env f w = Return (joined_pages texts)
  /\ joined_pages texts = PyStr.join PyStr.newline texts
  /\ length texts = length pages
  /\ String.length (joined_pages texts)
     = total_length texts + (length pages - 1)
  /\ PyStr.count_char PyStr.nl (joined_pages texts)
     = total_newlines texts + (length pages - 1).
Proof.
  intros Hwrite Hconv Hocr.
  pose proof (ocr_all_map env pages texts Hocr) as Hall.
  pose proof (ocr_all_length env pages texts Hall) as Hlen.
  split; [|split; [|split; [|split]]].
  - by apply (outcome_when_all_read env f w pages texts).
  - by rewrite join_joined_pages.
  - exact Hlen.
  - rewrite <- Hlen. apply joined_pages_length.
  - rewrite <- Hlen. apply joined_pages_newlines.
Qed.

(** C1 on three pages reading "A", nothing and "B": the result is "A\n\nB". *)
Lemma pdf_to_text_joins_pages_witness :
  outcome_of (Toy.env 16) Toy.doc_AB Toy.empty_world
  = Return (String "A" (String PyStr.nl (String PyStr.nl "B"))).
Proof.
  exact (proj1 (pdf_to_text_joins_pages (Toy.env 16) Toy.doc_AB Toy.empty_world
                 [x41; x2d; x42] ["A"; EmptyString; "B"] eq_refl eq_refl eq_refl)).
Defined.

(** C2.  When the staged copy is written, the rasterizer yields the N
    pages [pages] and the OCR engine reads every page, the progress bar
    receives exactly N reports, (1, N), (2, N), ..., (N, N) in this
    order: the report at position k is (k + 1, N).  So does the status
    line. *)
Theorem progress_reported_once_per_page
    {image : Type} (env : Externals image)
    (f : UploadedFile) (w : World image)
    (pages : list image) (texts : list string) :
  tmp_write env (read f) = None ->
  convert env (read f) = inr pages ->
  map (image_to_string env) pages = map inr texts ->
  progress_reports (events_of env f w)
    = map (fun i => (i, length pages)) (seq 1 (length pages))
  /\ status_reports (events_of env f w)
    = map (fun i => (i, length pages)) (seq 1 (length pages))
  /\ length (progress_reports (events_of env f w)) = length pages
  /\ forall k, k < length pages ->
       progress_reports (events_of env f w) !! k = Some (S k, length pages).
Proof.
  intros Hwrite Hconv Hocr.
  pose proof (ocr_all_map env pages texts Hocr) as Hall.
  destruct (loop_trace_ok env (length pages) pages 1 texts Hall)
    as (Hp & Hs & _).
  rewrite (events_when_all_read env f w pages texts Hwrite Hconv Hocr).
  rewrite !progress_reports_app, !status_reports_app, Hp, Hs.
  simpl. rewrite !app_nil_r. unfold reports_from.
  split; [done|]. split; [done|]. split.
  - by rewrite length_map, length_seq.
  - intros k Hk. by rewrite list_lookup_fmap, lookup_seq_lt.
Qed.

(** C2 on the same three pages. *)
Lemma progress_reported_once_per_page_witness :
  progress_reports (events_of (Toy.env 16) Toy.doc_AB Toy.empty_world)
  = [(1, 3); (2, 3); (3, 3)].
Proof.
  exact (proj1 (progress_reported_once_per_page (Toy.env 16) Toy.doc_AB
                 Toy.empty_world [x41; x2d; x42] ["A"; EmptyString; "B"]
                 eq_refl eq_refl eq_refl)).
Defined.

(** C3.  The temporary file outlives the call when writing the staged
    bytes fails: [pdf_to_text] raises the write error and the file that
    [NamedTemporaryFile] created is still there, empty. *)
Theorem tmp_file_left_when_write_fails
    {image : Type} (env : Externals image)
    (f : UploadedFile) (w : World image) (msg : string) :
  tmp_write env (read f) = Some msg ->
  outcome_of env f w = Raise (Raised TempFile msg)
  /\ fs (world_after env f w) !! tmp_name env (fs w) = Some [].
Proof.
  intros Hwrite. rewrite outcome_of_run, files_after_run, Hwrite.
  split; [reflexivity|]. apply lookup_insert_eq.
Qed.

(** C3 on a temporary directory with room for two bytes and an upload of
    four: the file is still there after the call. *)
Lemma tmp_file_left_when_write_fails_witness :
  outcome_of (Toy.env 2) Toy.doc_AB Toy.empty_world
  = Raise (Raised TempFile "[Errno 28] No space left on device")
  /\ fs (world_after (Toy.env 2) Toy.doc_AB Toy.empty_world) !! "/tmp/tmp0.pdf"
     = Some [].
Proof.
  exact (tmp_file_left_when_write_fails (Toy.env 2) Toy.doc_AB Toy.empty_world
           "[Errno 28] No space left on device" eq_refl).
Defined.

(** C4.  When the OCR engine reads the pages [before] and fails on the
    next page, [pdf_to_text] raises the engine's error and returns no
    string; the engine was called on the pages [before] and then once on
    the failing page, and on nothing after it; the temporary file is gone;
    [main] shows the error and nothing of the texts read so far. *)
Theorem ocr_failure_aborts
    {image : Type} (env : Externals image)
    (f : UploadedFile) (w : World image)
    (before after : list image) (page : image)
    (texts : list string) (msg : string) :
  tmp_write env (read f) = None ->
  convert env (read f) = inr (before ++ page :: after) ->
  map (image_to_string env) before = map inr texts ->
  image_to_string env page = inl msg ->
  outcome_of env f w = Raise (Raised OcrEngine msg)
  /\ (forall s, outcome_of env f w <> Return s)
  /\ ocr_calls (events_of env f w) = before ++ [page]
  /\ fs (world_after env f w) !! tmp_name env (fs w) = None
  /\ main_events env f w
     = events_of env f w
       ++ [StError (ErrorProcessing msg); StInfo CheckNotCorrupted].
Proof.
  intros Hwrite Hconv Hocr Hpage.
  pose proof (ocr_all_fails env before after page msg texts Hocr Hpage) as Hall.
  assert (Hout : outcome_of env f w = Raise (Raised OcrEngine msg)).
  { rewrite outcome_of_run, Hwrite. unfold staged_outcome.
    by rewrite Hconv, Hall. }
  split; [exact Hout|]. split; [|split; [|split]].
  - intros s Hs. rewrite Hout in Hs. discriminate.
  - rewrite (events_when_page_fails env f w before after page texts msg
               Hwrite Hconv Hocr Hpage).
    simpl.
    by destruct (loop_trace_fails env (length (before ++ page :: after))
                   before after page msg 1 texts Hocr Hpage) as (_ & _ & ->).
  - exact (proj1 (tmp_file_removed_once_written env f w Hwrite)).
  - rewrite main_events_run, Hout. reflexivity.
Qed.

(** C4 on three pages of which the second cannot be read. *)
Lemma ocr_failure_aborts_witness :
  outcome_of (Toy.env 16) Toy.doc_bad_page Toy.empty_world
  = Raise (Raised OcrEngine "tesseract failed")
  /\ ocr_calls (events_of (Toy.env 16) Toy.doc_bad_page Toy.empty_world)
     = [x41; x21].
Proof.
  pose proof (ocr_failure_aborts (Toy.env 16) Toy.doc_bad_page Toy.empty_world
                [x41] [x42] x21 ["A"] "tesseract failed"
                eq_refl eq_refl eq_refl eq_refl) as (Hout & _ & Hcalls & _).
  split; [exact Hout | exact Hcalls].
Defined.

(** C5 as stated fails: on bytes that are not a PDF, what leaves
    [pdf_to_text] is the rasterizer's exception itself, as it was raised,
    not an [ExtractionError] carrying it. *)
Lemma rejection_raises_extraction_error_counterexample :
  convert (Toy.env 16) (read Toy.doc_not_pdf)
  = inl "Unable to get page count."
  /\ outcome_of (Toy.env 16) Toy.doc_not_pdf Toy.empty_world
     = Raise (Raised Rasterizer "Unable to get page count.")
  /\ leaves_as (outcome_of (Toy.env 16) Toy.doc_not_pdf Toy.empty_world)
     = Some (AsRaised (Raised Rasterizer "Unable to get page count."))
  /\ ~ rejection_raises_extraction_error (Toy.env 16).
Proof.
  assert (Hout : outcome_of (Toy.env 16) Toy.doc_not_pdf Toy.empty_world
                 = Raise (Raised Rasterizer "Unable to get page count.")).
  { rewrite outcome_of_run. reflexivity. }
  split; [reflexivity|]. split; [exact Hout|]. split; [by rewrite Hout|].
  intros H.
  specialize (H Toy.doc_not_pdf Toy.empty_world "Unable to get page count."
                eq_refl).
  rewrite Hout in H. discriminate H.
Qed.

(** C5, as amended.  When the rasterizer rejects the bytes of the upload,
    [pdf_to_text] never returns a string.  Once the staged copy is written
    it raises the rasterizer's own exception, as it was raised and not
    wrapped; the OCR engine is not called, the temporary file is gone, and
    [main] shows that exception's text.  When the write of the staged copy
    fails, it is the write error that is raised, and the rasterizer is not
    called. *)
Theorem rasterizer_rejection_raises
    {image : Type} (env : Externals image)
    (f : UploadedFile) (w : World image) (msg : string) :
  convert env (read f) = inl msg ->
  (forall s, outcome_of env f w <> Return s)
  /\ (tmp_write env (read f) = None ->
      outcome_of env f w = Raise (Raised Rasterizer msg)
      /\ leaves_as (outcome_of env f w) = Some (AsRaised (Raised Rasterizer msg))
      /\ ocr_calls (events_of env f w) = []
      /\ fs (world_after env f w) !! tmp_name env (fs w) = None
      /\ main_events env f w
         = [RasterCall (tmp_name env (fs w));
            StError (ErrorProcessing msg); StInfo CheckNotCorrupted])
  /\ (forall m, tmp_write env (read f) = Some m ->
      outcome_of env f w = Raise (Raised TempFile m)
      /\ raster_calls (events_of env f w) = []).
Proof.
  intros Hconv. split; [|split].
  - intros s. rewrite outcome_of_run. unfold staged_outcome. rewrite Hconv.
    by destruct (tmp_write env (read f)).
  - intros Hwrite.
    assert (Hout : outcome_of env f w = Raise (Raised Rasterizer msg)).
    { rewrite outcome_of_run, Hwrite. unfold staged_outcome. by rewrite Hconv. }
    assert (Hev : events_of env f w = [RasterCall (tmp_name env (fs w))]).
    { rewrite events_of_run, Hwrite. unfold staged_trace. by rewrite Hconv. }
    split; [exact Hout|]. split; [by rewrite Hout|]. split; [|split].
    + by rewrite Hev.
    + exact (proj1 (tmp_file_removed_once_written env f w Hwrite)).
    + rewrite main_events_run, Hout, Hev. reflexivity.
  - intros m Hwrite. rewrite outcome_of_run, events_of_run, Hwrite. by split.
Qed.

(** C5 as amended, on bytes that are not a PDF: with room for the staged
    copy the rasterizer's exception is raised, without room the write
    error. *)
Lemma rasterizer_rejection_raises_witness :
  outcome_of (Toy.env 16) Toy.doc_not_pdf Toy.empty_world
  = Raise (Raised Rasterizer "Unable to get page count.")
  /\ outcome_of (Toy.env 2) Toy.doc_not_pdf Toy.empty_world
     = Raise (Raised TempFile "[Errno 28] No space left on device").
Proof.
  split.
  - pose proof (rasterizer_rejection_raises (Toy.env 16) Toy.doc_not_pdf
                  Toy.empty_world "Unable to get page count." eq_refl)
      as (_ & Hraise & _).
    exact (proj1 (Hraise eq_refl)).
  - pose proof (rasterizer_rejection_raises (Toy.env 2) Toy.doc_not_pdf
                  Toy.empty_world "Unable to get page count." eq_refl)
      as (_ & _ & Hwrite).
    exact (proj1 (Hwrite "[Errno 28] No space left on device" eq_refl)).
Defined.

(** C6 as stated fails: on a document whose only page cannot be read, the
    report (1, 1) is made before the OCR call that fails, so a report
    exists for a page whose OCR never returned a text. *)
Lemma reports_follow_ocr_counterexample :
  image_to_string (Toy.env 16) x21 = inl "tesseract failed"
  /\ events_of (Toy.env 16) Toy.doc_one_bad_page Toy.empty_world
     = [RasterCall "/tmp/tmp0.pdf"; StProgress 0; StEmpty;
        StatusText (ProcessingPage 1 1); ProgressSet 1 1; OcrCall x21]
  /\ progress_reports (events_of (Toy.env 16) Toy.doc_one_bad_page Toy.empty_world)
     = [(1, 1)]
  /\ ~ reports_follow_ocr (Toy.env 16).
Proof.
  assert (Hev : events_of (Toy.env 16) Toy.doc_one_bad_page Toy.empty_world
                = [RasterCall "/tmp/tmp0.pdf"; StProgress 0; StEmpty;
                   StatusText (ProcessingPage 1 1); ProgressSet 1 1; OcrCall x21]).
  { rewrite events_of_run. reflexivity. }
  split; [reflexivity|]. split; [exact Hev|]. split; [by rewrite Hev|].
  intros H.
  specialize (H Toy.doc_one_bad_page Toy.empty_world [] [] x21 []
                "tesseract failed" eq_refl eq_refl eq_refl eq_refl).
  rewrite Hev in H. discriminate H.
Qed.

(** C6, as amended.  A report (i, n) is made when the OCR of the pages
    1..i-1 has returned a text for each of them, and the next thing the
    program does is the OCR call of page i; n is the number of pages.
    A run whose OCR fails on page k has reported the pages 1..k. *)
Theorem progress_reported_before_ocr
    {image : Type} (env : Externals image)
    (f : UploadedFile) (w : World image) :
  (forall (t1 t2 : list (event image)) (i n : nat),
      events_of env f w = t1 ++ ProgressSet i n :: t2 ->
      exists (pages : list image) (page : image)
             (t2' : list (event image)) (texts : list string),
        convert env (read f) = inr pages
        /\ n = length pages
        /\ 1 <= i
        /\ pages !! (i - 1) = Some page
        /\ ocr_calls t1 = take (i - 1) pages
        /\ map (image_to_string env) (take (i - 1) pages) = map inr texts
        /\ t2 = OcrCall page :: t2')
  /\ (forall (before after : list image) (page : image)
             (texts : list string) (msg : string),
        tmp_write env (read f) = None ->
        convert env (read f) = inr (before ++ page :: after) ->
        map (image_to_string env) before = map inr texts ->
        image_to_string env page = inl msg ->
        progress_reports (events_of env f w)
        = map (fun i => (i, length (before ++ page :: after)))
              (seq 1 (S (length before)))).
Proof.
  split.
  - intros t1 t2 i n. rewrite events_of_run. unfold staged_trace.
    destruct (tmp_write env (read f)); [by destruct t1|].
    destruct (convert env (read f)) as [|pages].
    { by destruct t1 as [|e1 [|e2 t1]]. }
    intros H.
    destruct t1 as [|e1 [|e2 [|e3 t1]]]; simpl in H; try discriminate.
    injection H as <- <- <- H.
    apply app_split_left in H.
    + destruct H as (t2'' & Hloop & ->).
      destruct (loop_trace_split env _ _ _ _ _ _ _ Hloop)
        as (-> & Hle & page & t2' & texts & Hpage & Hcalls & Hread & ->).
      exists pages, page, (t2' ++ match ocr_all env pages with
                                  | inl _ => []
                                  | inr _ => [StatusText OcrComplete]
                                  end), texts.
      by repeat split.
    + destruct (ocr_all env pages); simpl; [tauto|].
      intros [He|[]]. discriminate He.
  - intros before after page texts msg Hwrite Hconv Hocr Hpage.
    rewrite (events_when_page_fails env f w before after page texts msg
               Hwrite Hconv Hocr Hpage).
    simpl.
    by destruct (loop_trace_fails env (length (before ++ page :: after))
                   before after page msg 1 texts Hocr Hpage) as (-> & _).
Qed.

(** C6 as amended, on three pages of which the second cannot be read:
    the report (2, 3) comes after the OCR call of page 1 and before that of
    page 2, and the pages 1 and 2 are reported. *)
Lemma progress_reported_before_ocr_witness :
  (exists pages page t2' texts,
      Toy.convert (read Toy.doc_bad_page) = inr pages
      /\ 3 = length pages
      /\ 1 <= 2
      /\ pages !! (2 - 1) = Some page
      /\ ocr_calls
           [RasterCall "/tmp/tmp0.pdf"; StProgress 0; StEmpty;
            StatusText (ProcessingPage 1 3); ProgressSet 1 3; OcrCall x41;
            StatusText (ProcessingPage 2 3)]
         = take (2 - 1) pages
      /\ map Toy.image_to_string (take (2 - 1) pages) = map inr texts
      /\ [OcrCall x21] = OcrCall page :: t2')
  /\ progress_reports (events_of (Toy.env 16) Toy.doc_bad_page Toy.empty_world)
     = [(1, 3); (2, 3)].
Proof.
  destruct (progress_reported_before_ocr (Toy.env 16) Toy.doc_bad_page
              Toy.empty_world) as (Horder & Hfail).
  split.
  - exact (Horder
             [RasterCall "/tmp/tmp0.pdf"; StProgress 0; StEmpty;
              StatusText (ProcessingPage 1 3); ProgressSet 1 3; OcrCall x41;
              StatusText (ProcessingPage 2 3)]
             [OcrCall x21] 2 3 eq_refl).
  - exact (Hfail [x41] [x42] x21 ["A"] "tesseract failed"
             eq_refl eq_refl eq_refl eq_refl).
Defined.

(** C7.  The download is offered as [text/plain] under the name built by
    line 94, which drops every [.pdf] of the original name, not the suffix
    alone: for ["report.pdf.final.pdf"] the name is
    ["report.final_extracted.txt"], where removing the suffix gives
    ["report.pdf.final_extracted.txt"].  The two agree on ["doc.pdf"]. *)
Theorem download_name_drops_every_pdf :
  download_name "report.pdf.final.pdf" = "report.final_extracted.txt"
  /\ suffix_download_name "report.pdf.final.pdf" = "report.pdf.final_extracted.txt"
  /\ download_name "report.pdf.final.pdf" <> suffix_download_name "report.pdf.final.pdf"
  /\ download_name "doc.pdf" = suffix_download_name "doc.pdf"
  /\ shown (image := Toy.image) (upload "report.pdf.final.pdf" [x25; x41]) (Return "A")
     = [StSuccess ExtractionCompleted;
        StMetric "Characters" 1; StMetric "Words" 1; StMetric "Lines" 1;
        StTextArea "A";
        StDownloadButton "A" "report.final_extracted.txt" "text/plain"].
Proof.
  split; [reflexivity|]. split; [reflexivity|]. split; [discriminate|].
  split; reflexivity.
Qed.

(** C8.  When every page reads as an empty or whitespace-only text,
    [pdf_to_text] returns a text made of whitespace only, and [main]
    shows the "no text" warning and nothing else; what [main] shows for
    an exception is never that. *)
Theorem blank_document_warns
    {image : Type} (env : Externals image)
    (f : UploadedFile) (w : World image)
    (pages : list image) (texts : list string) :
  tmp_write env (read f) = None ->
  convert env (read f) = inr pages ->
  map (image_to_string env) pages = map inr texts ->
  forallb PyStr.all_space texts = true ->
  exists r,
    outcome_of env f w = Return r
    /\ PyStr.all_space r = true
    /\ main_events env f w = events_of env f w ++ [StWarning NoTextExtracted]
    /\ forall e, shown f (Raise e) <> ([StWarning NoTextExtracted] : list (event image)).
Proof.
  intros Hwrite Hconv Hocr Hblank.
  pose proof (outcome_when_all_read env f w pages texts Hwrite Hconv Hocr)
    as Hout.
  pose proof (joined_pages_all_space texts Hblank) as Hspace.
  exists (joined_pages texts). split; [exact Hout|]. split; [exact Hspace|].
  split.
  - rewrite main_events_run, Hout. simpl.
    by rewrite (strip_all_space _ Hspace).
  - apply shown_raise_not_warning.
Qed.

(** C8 on a page reading " " and a blank page. *)
Lemma blank_document_warns_witness :
  exists r,
    outcome_of (Toy.env 16) Toy.doc_blank Toy.empty_world = Return r
    /\ PyStr.all_space r = true
    /\ main_events (Toy.env 16) Toy.doc_blank Toy.empty_world
       = events_of (Toy.env 16) Toy.doc_blank Toy.empty_world
         ++ [StWarning NoTextExtracted]
    /\ forall e, shown Toy.doc_blank (Raise e)
                 <> ([StWarning NoTextExtracted] : list (event Toy.image)).
Proof.
  exact (blank_document_warns (Toy.env 16) Toy.doc_blank Toy.empty_world
           [x20; x2d] [" "; EmptyString] eq_refl eq_refl eq_refl eq_refl).
Defined.

(** C9 as stated fails: the first call on a three-page upload returns its
    text and leaves the upload read to its end; the second call on the same
    upload stages no bytes, the rasterizer rejects the empty file, and the
    call raises. *)
Lemma same_upload_same_text_counterexample :
  pdf_to_text_twice (Toy.env 16) Toy.doc_AB Toy.empty_world
  = (Return (String "A" (String PyStr.nl (String PyStr.nl "B"))),
     Raise (Raised Rasterizer "Unable to get page count."))
  /\ read (after_read Toy.doc_AB) = []
  /\ ~ same_upload_same_text (Toy.env 16).
Proof.
  assert (Htwice : pdf_to_text_twice (Toy.env 16) Toy.doc_AB Toy.empty_world
                   = (Return (String "A" (String PyStr.nl (String PyStr.nl "B"))),
                      Raise (Raised Rasterizer "Unable to get page count."))).
  { vm_compute. reflexivity. }
  split; [exact Htwice|]. split; [reflexivity|].
  intros H.
  specialize (H Toy.doc_AB Toy.empty_world
                (String "A" (String PyStr.nl (String PyStr.nl "B")))).
  rewrite Htwice in H. specialize (H eq_refl). discriminate H.
Qed.

(** C9, as amended.  Here [f1] and [f2] are uploads as they are when a
    call starts, read position included.  The outcome of a call is a
    function of the bytes the upload delivers when it is read: two calls
    on uploads that deliver the same bytes, such as two fresh uploads of
    one document, have the same outcome, whatever the files on disk and
    the trace at the start of each, also when the second call starts in the
    world the first one left.  The upload itself is carried from call to
    call: of two calls in a row on the same upload the first has the
    outcome of a single call, and the second, finding the upload read to
    its end, has the outcome of a call on an upload without bytes. *)
Theorem extraction_function_of_bytes_read
    {image : Type} (env : Externals image)
    (f1 f2 : UploadedFile) (w1 w2 : World image) :
  read f1 = read f2 ->
  outcome_of env f1 w1 = outcome_of env f2 w2
  /\ outcome_of env f2 (world_after env f1 w1) = outcome_of env f1 w1
  /\ fst (pdf_to_text_twice env f1 w1) = outcome_of env f1 w1
  /\ snd (pdf_to_text_twice env f1 w1) = outcome_of env (upload (name f1) []) w2.
Proof.
  intros Hread.
  split; [by rewrite !outcome_of_run, Hread|].
  split; [by rewrite !outcome_of_run, Hread|].
  split; [reflexivity|].
  change (snd (pdf_to_text_twice env f1 w1))
    with (outcome_of env (after_read f1) (world_after env f1 w1)).
  rewrite !outcome_of_run, read_after_read. reflexivity.
Qed.

(** C9 as amended, on two uploads delivering the same four bytes, one of
    them read from its second byte on, in two different worlds; and on two
    calls in a row on the first. *)
Lemma extraction_function_of_bytes_read_witness :
  outcome_of (Toy.env 16) Toy.doc_AB Toy.empty_world
  = outcome_of (Toy.env 16)
      {| name := "copy.pdf"; data := [x00; x25; x41; x2d; x42]; pos := 1 |}
      Toy.used_world
  /\ snd (pdf_to_text_twice (Toy.env 16) Toy.doc_AB Toy.empty_world)
     = outcome_of (Toy.env 16) (upload "doc.pdf" []) Toy.used_world.
Proof.
  destruct (extraction_function_of_bytes_read (Toy.env 16) Toy.doc_AB
              {| name := "copy.pdf"; data := [x00; x25; x41; x2d; x42];
                 pos := 1 |}
              Toy.empty_world Toy.used_world eq_refl)
    as (Hsame & _ & _ & Hsecond).
  split; [exact Hsame | exact Hsecond].
Defined.

(** C10.  For a document without pages, once the staged copy is written,
    [pdf_to_text] returns the empty string and reports no progress, and
    the OCR engine is not called.  In no run at all does the quotient
    [i / len(pages)] divide by zero: [pdf_to_text] never raises
    [ZeroDivisionError], and every report (i, n) has 1 <= i <= n. *)
Theorem no_pages_no_progress
    {image : Type} (env : Externals image)
    (f : UploadedFile) (w : World image) :
  tmp_write env (read f) = None ->
  convert env (read f) = inr [] ->
  outcome_of env f w = Return EmptyString
  /\ progress_reports (events_of env f w) = []
  /\ status_reports (events_of env f w) = []
  /\ ocr_calls (events_of env f w) = []
  /\ (forall f' w', outcome_of env f' w' <> Raise ZeroDivisionError)
  /\ (forall f' w' i n,
        In (i, n) (progress_reports (events_of env f' w')) -> 1 <= i <= n).
Proof.
  intros Hwrite Hconv.
  assert (Hev : events_of env f w =
                [RasterCall (tmp_name env (fs w)); StProgress 0; StEmpty;
                 StatusText OcrComplete]).
  { rewrite events_of_run, Hwrite. unfold staged_trace. by rewrite Hconv. }
  split; [|split; [|split; [|split; [|split]]]].
  - rewrite outcome_of_run, Hwrite. unfold staged_outcome. by rewrite Hconv.
  - by rewrite Hev.
  - by rewrite Hev.
  - by rewrite Hev.
  - intros f' w'. rewrite outcome_of_run. unfold staged_outcome.
    destruct (tmp_write env (read f')); [done|].
    destruct (convert env (read f')) as [|pages]; [done|].
    by destruct (ocr_all env pages).
  - intros f' w' i n. rewrite events_of_run. unfold staged_trace.
    destruct (tmp_write env (read f')); [done|].
    destruct (convert env (read f')) as [|pages]; [done|].
    simpl. rewrite progress_reports_app. intros Hin.
    apply in_app_or in Hin. destruct Hin as [Hin|Hin].
    + destruct (loop_trace_reports_bounds env _ _ _ _ _ Hin) as (-> & Hi). lia.
    + by destruct (ocr_all env pages).
Qed.

(** C10 on a document without pages. *)
Lemma no_pages_no_progress_witness :
  outcome_of (Toy.env 16) Toy.doc_no_pages Toy.empty_world = Return EmptyString
  /\ progress_reports (events_of (Toy.env 16) Toy.doc_no_pages Toy.empty_world)
     = [].
Proof.
  pose proof (no_pages_no_progress (Toy.env 16) Toy.doc_no_pages
                Toy.empty_world eq_refl eq_refl) as (Hout & Hreports & _).
  split; [exact Hout | exact Hreports].
Defined.

(* ===================================================================== *)
(** ** Further facts on strings, traces and runs *)
(* ===================================================================== *)

Section MoreStringFacts.

Implicit Types s r : string.

(** A text with a character that is not whitespace strips to a text that
    starts with such a character. *)
Lemma lstrip_not_all_space s :
  PyStr.all_space s = false ->
  exists c s', PyStr.lstrip s = String c s' /\ PyStr.is_space c = false.
Proof.
  induction s as [|c s IH]; simpl; [done|].
  destruct (PyStr.is_space c) eqn:Hc; simpl.
  - exact IH.
  - intros _. by exists c, s.
Qed.

Lemma rstrip_keeps_head c s :
  PyStr.is_space c = false -> PyStr.truthy (PyStr.rstrip (String c s)) = true.
Proof.
  intros Hc. simpl. destruct (PyStr.rstrip s); [|done]. by rewrite Hc.
Qed.

(** [s.strip()] is non-empty exactly when [s] has a character that is not
    whitespace. *)
Lemma truthy_strip s :
  PyStr.truthy (PyStr.strip s) = negb (PyStr.all_space s).
Proof.
  destruct (PyStr.all_space s) eqn:Hs; simpl.
  - by apply strip_all_space.
  - destruct (lstrip_not_all_space s Hs) as (c & s' & Hl & Hc).
    unfold PyStr.strip. rewrite Hl. by apply rstrip_keeps_head.
Qed.

(** Counting words across a newline: the newline ends the word before it
    and is no word itself. *)
Lemma count_words_go_newline (b : bool) s r :
  PyStr.count_words_go b (s +:+ PyStr.newline +:+ r)
  = PyStr.count_words_go b s + PyStr.count_words r.
Proof.
  revert b. induction s as [|c s IH]; intros b.
  - reflexivity.
  - rewrite append_cons. simpl.
    destruct (PyStr.is_space c); rewrite IH; [done|]. lia.
Qed.

Lemma count_words_boundary s r :
  PyStr.count_words (s +:+ PyStr.newline +:+ r)
  = PyStr.count_words s + PyStr.count_words r.
Proof. apply count_words_go_newline. Qed.

Lemma count_words_before_boundaries (texts : list string) :
  forall t : string,
    PyStr.count_words (t +:+ after_boundaries texts)
    = PyStr.count_words t + total_words texts.
Proof.
  unfold total_words.
  induction texts as [|u texts IH]; intros t; simpl.
  - rewrite append_empty_r. lia.
  - by rewrite count_words_boundary, IH.
Qed.

(** The words of the joined pages are the words of the pages. *)
Lemma joined_pages_words (texts : list string) :
  PyStr.count_words (joined_pages texts) = total_words texts.
Proof.
  destruct texts as [|t texts]; [done|]. simpl joined_pages.
  by rewrite count_words_before_boundaries.
Qed.

(** Where [old] does not occur, [replace] changes nothing. *)
Lemma replace_go_absent (old new : string) s :
  occurs old s = false -> PyStr.replace_go old new 0 s = s.
Proof.
  induction s as [|c s IH]; [done|].
  change (occurs old (String c s))
    with (String.prefix old (String c s) || occurs old s).
  intros [Hp Hs]%orb_false_iff.
  rewrite replace_go_cons, Hp, (IH Hs). reflexivity.
Qed.

End MoreStringFacts.

Section MoreRunFacts.

Context {image : Type} (env : Externals image).

Lemma raster_calls_app (t u : list (event image)) :
  raster_calls (t ++ u) = raster_calls t ++ raster_calls u.
Proof.
  induction t as [|e t IH]; [done|].
  destruct e; simpl; rewrite ?IH; reflexivity.
Qed.

(** The page loop keeps the status line, the progress bar and the OCR
    calls in step, calls the pages in order, never calls the rasterizer
    and never says it is complete. *)
Lemma loop_trace_lockstep (n : nat) (rest : list image) :
  forall i : nat,
    let t := loop_trace env n i rest in
    status_reports t = progress_reports t
    /\ progress_reports t = reports_from i n (length (ocr_calls t))
    /\ ocr_calls t = take (length (ocr_calls t)) rest
    /\ raster_calls t = []
    /\ ~ In (StatusText OcrComplete) t.
Proof.
  induction rest as [|p rest IH]; intros i; simpl.
  - repeat split; try reflexivity. tauto.
  - destruct (image_to_string env p); simpl.
    + repeat split; try reflexivity. intros [H|[H|[H|[]]]]; discriminate H.
    + destruct (IH (S i)) as (Hs & Hp & Ho & Hr & Hc).
      rewrite Hs. unfold reports_from in *. simpl. rewrite <- Hp, <- Ho.
      repeat split; try (reflexivity || assumption).
      intros [H|[H|[H|H]]]; try discriminate H.
      by apply Hc.
Qed.

(** When the OCR engine fails over [pages], it fails on a page all pages
    before which it has read. *)
Lemma ocr_all_inl_inv (pages : list image) (msg : string) :
  ocr_all env pages = inl msg ->
  exists (before after : list image) (page : image) (texts : list string),
    pages = before ++ page :: after
    /\ map (image_to_string env) before = map inr texts
    /\ image_to_string env page = inl msg.
Proof.
  induction pages as [|p pages IH]; simpl; [discriminate|].
  destruct (image_to_string env p) as [m|text] eqn:Hp.
  - intros H. injection H as ->. by exists [], pages, p, [].
  - destruct (ocr_all env pages) as [m|ts]; [|discriminate].
    intros H. injection H as ->.
    destruct (IH eq_refl) as (before & after & page & texts & -> & Hread & Hpage).
    exists (p :: before), after, page, (text :: texts). simpl.
    by rewrite Hp, Hread.
Qed.

(** The world after the processing branch of [main]: the files are those
    [pdf_to_text] leaves, and [main] returns. *)
Lemma main_run (f : UploadedFile) (w : World image) :
  fst (main env (Some f) true w) = Return tt
  /\ fs (snd (main env (Some f) true w)) = fs (world_after env f w).
Proof.
  unfold main, try_except, world_after. unfold mbind, M_bind.
  destruct (pdf_to_text env f w) as [[text|e] w1]; simpl.
  - by rewrite show_result_run.
  - unfold_M. done.
Qed.

End MoreRunFacts.

(* ===================================================================== *)
(** ** Further properties of [pdf_to_text] and [main] *)
(* ===================================================================== *)

(** X1.  When the name [NamedTemporaryFile] picks is not in use and the
    staged copy is written, [pdf_to_text] leaves the files on disk exactly
    as it found them, whether it returns or raises. *)
Theorem files_restored
    {image : Type} (env : Externals image)
    (f : UploadedFile) (w : World image) :
  tmp_write env (read f) = None ->
  fs w !! tmp_name env (fs w) = None ->
  fs (world_after env f w) = fs w.
Proof.
  intros Hwrite Hfresh. rewrite files_after_run, Hwrite.
  by apply delete_id.
Qed.

(** X1 in a world that has another file, on a document of which a page
    cannot be read. *)
Lemma files_restored_witness :
  fs (world_after (Toy.env 16) Toy.doc_bad_page Toy.used_world)
  = fs Toy.used_world.
Proof.
  apply (files_restored (Toy.env 16) Toy.doc_bad_page Toy.used_world).
  - reflexivity.
  - vm_compute. reflexivity.
Defined.

(** X2.  No run of [pdf_to_text], and no run of [main], changes a file
    other than the temporary one: every other path holds after the run
    what it held before, also when the write of the staged copy fails. *)
Theorem other_files_untouched
    {image : Type} (env : Externals image)
    (f : UploadedFile) (w : World image) (path : string) :
  path <> tmp_name env (fs w) ->
  fs (world_after env f w) !! path = fs w !! path
  /\ fs (snd (main env (Some f) true w)) !! path = fs w !! path.
Proof.
  intros Hne.
  assert (H : fs (world_after env f w) !! path = fs w !! path).
  { rewrite files_after_run.
    destruct (tmp_write env (read f)).
    - by apply lookup_insert_ne.
    - by apply lookup_delete_ne. }
  split; [exact H|].
  by rewrite (proj2 (main_run env f w)).
Qed.

(** X2 on the file that is there before a run whose write fails. *)
Lemma other_files_untouched_witness :
  fs (world_after (Toy.env 2) Toy.doc_AB Toy.used_world) !! "/tmp/tmp0.pdf"
  = fs Toy.used_world !! "/tmp/tmp0.pdf".
Proof.
  apply (other_files_untouched (Toy.env 2) Toy.doc_AB Toy.used_world
           "/tmp/tmp0.pdf").
  vm_compute. discriminate.
Defined.

(** X3.  Whatever [pdf_to_text] raises is what a collaborator raised,
    unchanged: the write error; or, once the staged copy is written, the
    rasterizer's error; or, once there are pages, the OCR engine's error on
    the first page it cannot read.  The cleanup in [finally] never replaces
    it: [os.unlink] finds its file. *)
Theorem raised_by_collaborator
    {image : Type} (env : Externals image)
    (f : UploadedFile) (w : World image) (e : exn) :
  outcome_of env f w = Raise e ->
  (exists msg, e = Raised TempFile msg /\ tmp_write env (read f) = Some msg)
  \/ (exists msg,
        e = Raised Rasterizer msg
        /\ tmp_write env (read f) = None
        /\ convert env (read f) = inl msg)
  \/ (exists msg (before after : list image) (page : image)
             (texts : list string),
        e = Raised OcrEngine msg
        /\ tmp_write env (read f) = None
        /\ convert env (read f) = inr (before ++ page :: after)
        /\ map (image_to_string env) before = map inr texts
        /\ image_to_string env page = inl msg).
Proof.
  rewrite outcome_of_run. unfold staged_outcome.
  destruct (tmp_write env (read f)) as [m|].
  { intros H. injection H as <-. left. by exists m. }
  destruct (convert env (read f)) as [m|pages].
  { intros H. injection H as <-. right. left. by exists m. }
  destruct (ocr_all env pages) as [m|texts] eqn:Hall; [|discriminate].
  intros H. injection H as <-. right. right.
  destruct (ocr_all_inl_inv env pages m Hall)
    as (before & after & page & texts & -> & Hread & Hpage).
  by exists m, before, after, page, texts.
Qed.

(** X3 on a document whose second page cannot be read. *)
Lemma raised_by_collaborator_witness :
  (exists msg,
      Raised OcrEngine "tesseract failed" = Raised TempFile msg
      /\ tmp_write (Toy.env 16) (read Toy.doc_bad_page) = Some msg)
  \/ (exists msg,
        Raised OcrEngine "tesseract failed" = Raised Rasterizer msg
        /\ tmp_write (Toy.env 16) (read Toy.doc_bad_page) = None
        /\ convert (Toy.env 16) (read Toy.doc_bad_page) = inl msg)
  \/ (exists msg before after page texts,
        Raised OcrEngine "tesseract failed" = Raised OcrEngine msg
        /\ tmp_write (Toy.env 16) (read Toy.doc_bad_page) = None
        /\ convert (Toy.env 16) (read Toy.doc_bad_page)
           = inr (before ++ page :: after)
        /\ map (image_to_string (Toy.env 16)) before = map inr texts
        /\ image_to_string (Toy.env 16) page = inl msg).
Proof.
  apply (raised_by_collaborator (Toy.env 16) Toy.doc_bad_page Toy.empty_world).
  rewrite outcome_of_run. reflexivity.
Defined.

(** X4.  Once the staged copy is written, the rasterizer is called exactly
    once, on the temporary file, whatever happens afterwards; when the
    write fails, nothing is called and nothing is shown. *)
Theorem rasterizer_called_once
    {image : Type} (env : Externals image)
    (f : UploadedFile) (w : World image) :
  (tmp_write env (read f) = None ->
   raster_calls (events_of env f w) = [tmp_name env (fs w)])
  /\ (forall msg, tmp_write env (read f) = Some msg -> events_of env f w = []).
Proof.
  rewrite events_of_run. split.
  - intros ->. unfold staged_trace. simpl. f_equal.
    destruct (convert env (read f)) as [|pages]; [done|].
    simpl. rewrite raster_calls_app.
    destruct (loop_trace_lockstep env (length pages) pages 1)
      as (_ & _ & _ & -> & _).
    by destruct (ocr_all env pages).
  - by intros msg ->.
Qed.

(** X4 on a document whose second page cannot be read, and on a write
    that fails. *)
Lemma rasterizer_called_once_witness :
  raster_calls (events_of (Toy.env 16) Toy.doc_bad_page Toy.empty_world)
  = ["/tmp/tmp0.pdf"]
  /\ events_of (Toy.env 2) Toy.doc_AB Toy.empty_world = [].
Proof.
  split.
  - apply (proj1 (rasterizer_called_once (Toy.env 16) Toy.doc_bad_page
                    Toy.empty_world)).
    reflexivity.
  - apply (proj2 (rasterizer_called_once (Toy.env 2) Toy.doc_AB
                    Toy.empty_world) "[Errno 28] No space left on device").
    reflexivity.
Defined.

(** X5.  In every run, whatever fails, the status line and the progress
    bar receive the same reports, one for each call of the OCR engine;
    the engine is called on the pages in page order without skipping any,
    and the k reports made are (1, N), ..., (k, N). *)
Theorem reports_in_step_with_ocr
    {image : Type} (env : Externals image)
    (f : UploadedFile) (w : World image) :
  status_reports (events_of env f w) = progress_reports (events_of env f w)
  /\ length (progress_reports (events_of env f w))
     = length (ocr_calls (events_of env f w))
  /\ forall pages : list image,
       convert env (read f) = inr pages ->
       ocr_calls (events_of env f w)
       = take (length (ocr_calls (events_of env f w))) pages
       /\ progress_reports (events_of env f w)
          = map (fun i => (i, length pages))
                (seq 1 (length (ocr_calls (events_of env f w)))).
Proof.
  rewrite events_of_run. unfold staged_trace.
  destruct (tmp_write env (read f)).
  { split; [done|]. split; [done|]. intros pages _. by destruct pages. }
  destruct (convert env (read f)) as [|pages].
  { split; [done|]. split; [done|]. intros pages H. discriminate H. }
  simpl.
  destruct (loop_trace_lockstep env (length pages) pages 1)
    as (Hs & Hp & Ho & _ & _).
  assert (Htail : forall u : list (event image),
             u = [] \/ u = [StatusText OcrComplete] ->
             status_reports u = [] /\ progress_reports u = []
             /\ ocr_calls u = []).
  { by intros u [-> | ->]. }
  destruct (Htail (match ocr_all env pages with
                   | inl _ => []
                   | inr _ => [StatusText OcrComplete]
                   end)) as (Hts & Htp & Hto).
  { destruct (ocr_all env pages); auto. }
  rewrite status_reports_app, progress_reports_app, ocr_calls_app.
  rewrite Hts, Htp, Hto, !app_nil_r.
  split; [exact Hs|]. split.
  - rewrite Hp at 1. unfold reports_from. by rewrite length_map, length_seq.
  - intros pages' H. injection H as <-. split; [exact Ho | exact Hp].
Qed.

(** X5 on a document whose second page cannot be read: two reports, two
    OCR calls. *)
Lemma reports_in_step_with_ocr_witness :
  ocr_calls (events_of (Toy.env 16) Toy.doc_bad_page Toy.empty_world)
  = take
      (length (ocr_calls (events_of (Toy.env 16) Toy.doc_bad_page
                            Toy.empty_world)))
      [x41; x21; x42]
  /\ progress_reports (events_of (Toy.env 16) Toy.doc_bad_page Toy.empty_world)
     = map (fun i => (i, 3))
           (seq 1 (length (ocr_calls (events_of (Toy.env 16) Toy.doc_bad_page
                                        Toy.empty_world)))).
Proof.
  apply (proj2 (proj2 (reports_in_step_with_ocr (Toy.env 16) Toy.doc_bad_page
                         Toy.empty_world)) [x41; x21; x42]).
  reflexivity.
Defined.

(** X6.  The status line says "OCR processing complete!" in exactly the
    runs in which [pdf_to_text] returns a text. *)
Theorem complete_shown_iff_returned
    {image : Type} (env : Externals image)
    (f : UploadedFile) (w : World image) :
  In (StatusText OcrComplete) (events_of env f w)
  <-> exists r, outcome_of env f w = Return r.
Proof.
  rewrite events_of_run, outcome_of_run. unfold staged_trace, staged_outcome.
  destruct (tmp_write env (read f)).
  { split; [intros [] | intros [r H]; discriminate H]. }
  destruct (convert env (read f)) as [|pages].
  { split; [intros [H|[]]; discriminate H | intros [r H]; discriminate H]. }
  destruct (loop_trace_lockstep env (length pages) pages 1)
    as (_ & _ & _ & _ & Hnot).
  destruct (ocr_all env pages) as [|texts].
  - split; [|intros [r H]; discriminate H].
    rewrite app_nil_r. intros [H|[H|[H|H]]]; try discriminate H.
    by destruct Hnot.
  - split; [intros _; by eexists|]. intros _.
    right. right. right. apply in_or_app. right. by left.
Qed.

(** X6 on three pages that are all read. *)
Lemma complete_shown_iff_returned_witness :
  In (StatusText OcrComplete)
     (events_of (Toy.env 16) Toy.doc_AB Toy.empty_world).
Proof.
  apply (proj2 (complete_shown_iff_returned (Toy.env 16) Toy.doc_AB
                  Toy.empty_world)).
  exists (String "A" (String PyStr.nl (String PyStr.nl "B"))).
  vm_compute. reflexivity.
Defined.

(** X7.  A text [pdf_to_text] returns is never partial: when it returns,
    the staged copy was written, the rasterizer gave pages, the OCR engine
    gave a text for every page, and the result is these texts joined. *)
Theorem returned_text_is_complete
    {image : Type} (env : Externals image)
    (f : UploadedFile) (w : World image) (r : string) :
  outcome_of env f w = Return r ->
  exists (pages : list image) (texts : list string),
    tmp_write env (read f) = None
    /\ convert env (read f) = inr pages
    /\ map (image_to_string env) pages = map inr texts
    /\ length texts = length pages
    /\ r = PyStr.join PyStr.newline texts.
Proof.
  rewrite outcome_of_run. unfold staged_outcome.
  destruct (tmp_write env (read f)); [discriminate|].
  destruct (convert env (read f)) as [|pages]; [discriminate|].
  destruct (ocr_all env pages) as [|texts] eqn:Hall; [discriminate|].
  intros H. injection H as <-. exists pages, texts.
  split; [done|]. split; [done|]. split; [|split; [|done]].
  - exact (ocr_all_inv env pages texts Hall).
  - exact (ocr_all_length env pages texts Hall).
Qed.

(** X7 on three pages that are all read. *)
Lemma returned_text_is_complete_witness :
  exists (pages : list Toy.image) (texts : list string),
    tmp_write (Toy.env 16) (read Toy.doc_AB) = None
    /\ convert (Toy.env 16) (read Toy.doc_AB) = inr pages
    /\ map (image_to_string (Toy.env 16)) pages = map inr texts
    /\ length texts = length pages
    /\ String "A" (String PyStr.nl (String PyStr.nl "B"))
       = PyStr.join PyStr.newline texts.
Proof.
  apply (returned_text_is_complete (Toy.env 16) Toy.doc_AB Toy.empty_world).
  vm_compute. reflexivity.
Defined.

(** X9.  After a click [main] shows, after what [pdf_to_text] shows,
    exactly one of three things: for an exception, the error with its text
    and the hint; for a text made of whitespace only (or empty), the
    warning; for any other text, the success block, in which the text area
    and the download hold the text as [pdf_to_text] returned it. *)
Theorem main_shows_one_block
    {image : Type} (env : Externals image)
    (f : UploadedFile) (w : World image) :
  main_events env f w
  = events_of env f w
    ++ match outcome_of env f w with
       | Raise e => [StError (ErrorProcessing (str e)); StInfo CheckNotCorrupted]
       | Return r =>
           if PyStr.all_space r then [StWarning NoTextExtracted]
           else success_block f r
       end.
Proof.
  rewrite main_events_run. f_equal.
  destruct (outcome_of env f w) as [r|e]; [|reflexivity].
  unfold shown. rewrite truthy_strip.
  by destruct (PyStr.all_space r).
Qed.

(** X10.  When the pages are read and their texts hold something other
    than whitespace, the statistics [main] shows are those of the pages:
    the characters of the texts plus one per page boundary, the words of
    the texts (joining pages neither merges nor splits words), and the
    newlines of the texts plus the number of pages as lines. *)
Theorem statistics_of_pages
    {image : Type} (env : Externals image)
    (f : UploadedFile) (w : World image)
    (pages : list image) (texts : list string) :
  tmp_write env (read f) = None ->
  convert env (read f) = inr pages ->
  map (image_to_string env) pages = map inr texts ->
  PyStr.all_space (joined_pages texts) = false ->
  main_events env f w
  = events_of env f w
    ++ [StSuccess ExtractionCompleted;
        StMetric "Characters" (total_length texts + (length pages - 1));
        StMetric "Words" (total_words texts);
        StMetric "Lines" (total_newlines texts + length pages);
        StTextArea (joined_pages texts);
        StDownloadButton (joined_pages texts) (download_name (name f))
          "text/plain"].
Proof.
  intros Hwrite Hconv Hocr Htext.
  pose proof (ocr_all_length env pages texts
                (ocr_all_map env pages texts Hocr)) as Hlen.
  rewrite main_events_run.
  rewrite (outcome_when_all_read env f w pages texts Hwrite Hconv Hocr).
  unfold shown. rewrite truthy_strip, Htext. simpl negb. cbv iota.
  rewrite joined_pages_length, joined_pages_words.
  unfold PyStr.count_lines. rewrite joined_pages_newlines, Hlen.
  assert (Hpos : 1 <= length pages).
  { rewrite <- Hlen. destruct texts; [discriminate Htext | simpl; lia]. }
  do 4 f_equal. f_equal. f_equal. lia.
Qed.

(** X10 on four pages reading "A", "B", " " and "C": 7 characters, 3 words
    and 4 lines. *)
Lemma statistics_of_pages_witness :
  main_events (Toy.env 16) Toy.doc_words Toy.empty_world
  = events_of (Toy.env 16) Toy.doc_words Toy.empty_world
    ++ [StSuccess ExtractionCompleted;
        StMetric "Characters" 7; StMetric "Words" 3; StMetric "Lines" 4;
        StTextArea (joined_pages ["A"; "B"; " "; "C"]);
        StDownloadButton (joined_pages ["A"; "B"; " "; "C"])
          "words_extracted.txt" "text/plain"].
Proof.
  apply (statistics_of_pages (Toy.env 16) Toy.doc_words Toy.empty_world
           [x41; x42; x20; x43] ["A"; "B"; " "; "C"]); reflexivity.
Defined.

(** X11.  For a name made of a stem without [.] and the extension
    [.pdf], the download name is the stem followed by [_extracted.txt]. *)
Theorem download_name_strips_extension (stem : string) :
  has_dot stem = false ->
  download_name (stem +:+ ".pdf") = stem +:+ "_extracted.txt".
Proof.
  intros Hstem. unfold download_name, PyStr.replace.
  rewrite (replace_go_no_dot stem ".pdf" EmptyString Hstem).
  change (PyStr.replace_go ".pdf" EmptyString 0 ".pdf") with EmptyString.
  by rewrite append_empty_r.
Qed.

(** X11 on ["scan_2024"]. *)
Lemma download_name_strips_extension_witness :
  download_name ("scan_2024" +:+ ".pdf") = "scan_2024" +:+ "_extracted.txt".
Proof.
  apply (download_name_strips_extension "scan_2024"). reflexivity.
Defined.

(** X12.  A name in which [.pdf] does not occur is kept whole: the
    download name is the name followed by [_extracted.txt].  So an
    extension in capitals stays in the download name. *)
Theorem download_name_keeps_other_names (original : string) :
  occurs ".pdf" original = false ->
  download_name original = original +:+ "_extracted.txt".
Proof.
  intros Habsent. unfold download_name, PyStr.replace.
  by rewrite (replace_go_absent ".pdf" EmptyString original Habsent).
Qed.

(** X12 on ["SCAN.PDF"]. *)
Lemma download_name_keeps_other_names_witness :
  download_name "SCAN.PDF" = "SCAN.PDF" +:+ "_extracted.txt".
Proof.
  apply (download_name_keeps_other_names "SCAN.PDF"). reflexivity.
Defined.
